(** * Retrieval engine of the PubMed RAG assistant

    A shallow embedding of [RAG/cohere_pubmed_RAG_v2.py], class [Documents]:
    [load], [embed], [index], [retrieve] and the constructor, followed by
    the properties of the retrieval pipeline; then class [Chatbot] and the
    command loop of the script, with their properties.

    Python objects are modelled as follows.
    - The parsed dataset is a [json] value, the result of [json.load].  A
      Python [str] is the [string] of its UTF-8 encoding.
    - [self] is the record [Documents]; a method is a computation in the
      monad [M], which threads the object and the trace of external calls
      and may raise a Python exception.
    - The Cohere client [co] and the [hnswlib] index are external: they are
      the interfaces [CohereClient] and [Hnswlib].  A response of the client
      may depend on every call made so far.
    - The progress messages that [Documents] prints are left out. *)

From Stdlib Require Import ZArith String Ascii List Lia.
From stdpp Require Import base list strings.

Local Open Scope Z_scope.
Local Open Scope string_scope.
Local Open Scope list_scope.
Local Open Scope nat_scope.

(** ** Python values and exceptions *)

(** What [json.load] returns.  Numbers are integers; a float behaves like an
    integer for every operation used here (neither iterable nor
    subscriptable).  The fields of [JObj] are the items of the dict in
    insertion order. *)
#[local] Set Warnings "-register-all".
Inductive json : Type :=
| JNull
| JBool (b : bool)
| JNum (n : Z)
| JStr (s : string)
| JArr (items : list json)
| JObj (fields : list (string * json)).

Inductive Exn : Type :=
| KeyError (key : string)
| TypeError
| IndexError
| AttributeError (attr : string)
| ValueError
| OSError
| RuntimeError (msg : string)
| BackendError (msg : string).

Inductive Res (A : Type) : Type :=
| Ok (a : A)
| Raise (e : Exn).
Arguments Ok {A} a.
Arguments Raise {A} e.

Definition res_bind {A B} (r : Res A) (k : A -> Res B) : Res B :=
  match r with
  | Ok a => k a
  | Raise e => Raise e
  end.

Fixpoint res_mapM {A B} (f : A -> Res B) (l : list A) : Res (list B) :=
  match l with
  | [] => Ok []
  | x :: l' =>
      res_bind (f x) (fun y => res_bind (res_mapM f l') (fun ys => Ok (y :: ys)))
  end.

Fixpoint assoc (key : string) (fields : list (string * json)) : option json :=
  match fields with
  | [] => None
  | (k, v) :: rest => if String.eqb k key then Some v else assoc key rest
  end.

(** [obj[key]] for a string key. *)
Definition py_getitem (obj : json) (key : string) : Res json :=
  match obj with
  | JObj fields =>
      match assoc key fields with
      | Some v => Ok v
      | None => Raise (KeyError key)
      end
  | _ => Raise TypeError
  end.

(** A [string] holds the UTF-8 encoding of a Python [str].  Python iterates
    a [str] by character (code point), and in UTF-8 a character is one byte
    that is no continuation byte ([10xxxxxx]) with the continuation bytes
    that follow it. *)
Definition is_continuation (c : ascii) : bool :=
  (128 <=? nat_of_ascii c) && (nat_of_ascii c <? 192).

(** The continuation bytes [s] begins with, and the characters after them. *)
Fixpoint split_chars (s : string) : string * list string :=
  match s with
  | EmptyString => (EmptyString, [])
  | String c s' =>
      let (continuation, cs) := split_chars s' in
      if is_continuation c then (String c continuation, cs)
      else (EmptyString, String c continuation :: cs)
  end.

(** The characters of [s], each a string of length one in Python.  The
    encoding of a [str] begins with no continuation byte; bytes that do are
    kept as one item. *)
Definition chars (s : string) : list json :=
  let (continuation, cs) := split_chars s in
  map JStr match continuation with
           | EmptyString => cs
           | _ => continuation :: cs
           end.

(** The number of characters of the [str] that [s] encodes. *)
Fixpoint code_points (s : string) : nat :=
  match s with
  | EmptyString => 0
  | String c s' =>
      if is_continuation c then code_points s' else S (code_points s')
  end.

(** [s] begins with a character, as the encoding of a [str] does. *)
Definition begins_character (s : string) : Prop :=
  match s with
  | EmptyString => True
  | String c _ => is_continuation c = false
  end.

(** The items a [for] loop over [obj] visits. *)
Definition py_iter (obj : json) : Res (list json) :=
  match obj with
  | JArr items => Ok items
  | JStr s => Ok (chars s)
  | JObj fields => Ok (map (fun kv => JStr (fst kv)) fields)
  | _ => Raise TypeError
  end.

(** The position that [l[i]] reads in a list of [len] items: a negative
    index counts from the end. *)
Definition py_position (len : nat) (i : Z) : Z :=
  if (i <? 0)%Z then (i + Z.of_nat len)%Z else i.

(** [l[i]] for a Python or numpy integer [i]. *)
Definition py_index {A} (l : list A) (i : Z) : Res A :=
  let j := py_position (length l) i in
  if (j <? 0)%Z then Raise IndexError
  else match l !! Z.to_nat j with
       | Some x => Ok x
       | None => Raise IndexError
       end.

(** [range(start, stop, step)] for [step >= 0]; a zero step is refused. *)
Definition py_range (start stop step : nat) : Res (list nat) :=
  if step =? 0 then Raise ValueError
  else Ok (map (fun j => start + j * step)
               (seq 0 ((stop - start + (step - 1)) / step))).

(** [l[lo:hi]]: a slice is clipped to the list. *)
Definition py_slice {A} (l : list A) (lo hi : nat) : list A :=
  take (hi - lo) (drop lo l).

(** ** The data model *)

(** An entry of [self.docs]: the dict with keys "title" and "text". *)
Record Passage : Type := { title : json; text : json }.

(** An item of the rerank response; only [index] is read. *)
Module RerankResult.
Record t : Type := { index : Z }.
End RerankResult.

(** A call that leaves the process. *)
Inductive Event : Type :=
| EvOpen (path : string)
| EvEmbed (texts : list json) (model input_type : string)
| EvRerank (query : string) (documents : list json) (top_n : nat) (model : string)
| EvInitIndex (max_elements ef_construction m : nat)
| EvAddItems (n_items : nat) (ids : list nat)
| EvKnnQuery (k : nat).

(** The Cohere client.  The first argument is the history of calls. *)
Class CohereClient (Vec : Type) : Type := {
  co_embed : list Event -> list json -> string -> string -> Res (list Vec);
  co_rerank : list Event -> string -> list json -> nat -> string ->
              Res (list RerankResult.t)
}.

(** The [hnswlib] index.  [knn_query] gives the label matrix, one row per
    query vector. *)
Class Hnswlib (Vec Index : Type) : Type := {
  hnsw_Index : string -> nat -> Index;
  init_index : Index -> nat -> nat -> nat -> Res Index;
  add_items : Index -> list Vec -> list nat -> Res Index;
  knn_query : Index -> list Vec -> nat -> Res (list (list nat));
  get_current_count : Index -> nat
}.

Definition Sources : Type := option (list (list (string * string))).

(** The attributes of a [Documents] object.  [docs_len] and [index] are set
    by [embed] and [index]; before that they are [None]. *)
Record Documents (Vec Index : Type) : Type := {
  self_sources : Sources;
  self_docs : list Passage;
  self_docs_embs : list Vec;
  self_retrieve_top_k : nat;
  self_rerank_top_k : nat;
  self_docs_len : option nat;
  self_index : option Index
}.
Arguments self_sources {Vec Index} _.
Arguments self_docs {Vec Index} _.
Arguments self_docs_embs {Vec Index} _.
Arguments self_retrieve_top_k {Vec Index} _.
Arguments self_rerank_top_k {Vec Index} _.
Arguments self_docs_len {Vec Index} _.
Arguments self_index {Vec Index} _.

Record World (Vec Index : Type) : Type := {
  self : Documents Vec Index;
  trace : list Event
}.
Arguments self {Vec Index} _.
Arguments trace {Vec Index} _.

(** ** The monad of methods *)

Section Monad.
Context {Vec Index : Type}.

Definition M (A : Type) : Type :=
  World Vec Index -> World Vec Index * Res A.

Definition ret {A} (a : A) : M A := fun w => (w, Ok a).

Definition raise {A} (e : Exn) : M A := fun w => (w, Raise e).

Definition bind {A B} (m : M A) (k : A -> M B) : M B :=
  fun w =>
    match m w with
    | (w', Ok a) => k a w'
    | (w', Raise e) => (w', Raise e)
    end.

Definition lift {A} (r : Res A) : M A := fun w => (w, r).

Definition get_self : M (Documents Vec Index) := fun w => (w, Ok (self w)).

Definition set_self (d : Documents Vec Index) : M unit :=
  fun w => ({| self := d; trace := trace w |}, Ok tt).

Definition emit (ev : Event) : M unit :=
  fun w => ({| self := self w; trace := trace w ++ [ev] |}, Ok tt).

Fixpoint for_each {A} (l : list A) (body : A -> M unit) : M unit :=
  match l with
  | [] => ret tt
  | x :: l' => bind (body x) (fun _ => for_each l' body)
  end.
End Monad.

Declare Scope py_scope.
Delimit Scope py_scope with py.
Notation "'let*' x ':=' m 'in' k" := (bind m (fun x => k))
  (at level 10, x name, m at level 100, k at level 200) : py_scope.
Notation "m1 '>>' m2" := (bind m1 (fun _ => m2))
  (at level 100, m2 at level 200, right associativity) : py_scope.

Local Open Scope py_scope.

(** ** The class [Documents] *)

Module Documents.
Section Methods.
Context {Vec Index : Type}.
Context {co : CohereClient Vec} {hnswlib : Hnswlib Vec Index}.

(** [open(path)] followed by [json.load]: the parsed file, or the
    exception either of them raises. *)
Variable open_json : string -> Res json.

Abbreviation M := (@M Vec Index).
Abbreviation Self := (Documents Vec Index).

(** Assignments to one attribute. *)
Definition with_docs (d : Self) (v : list Passage) : Self :=
  {| self_sources := self_sources d; self_docs := v;
     self_docs_embs := self_docs_embs d;
     self_retrieve_top_k := self_retrieve_top_k d;
     self_rerank_top_k := self_rerank_top_k d;
     self_docs_len := self_docs_len d; self_index := self_index d |}.

Definition with_docs_embs (d : Self) (v : list Vec) : Self :=
  {| self_sources := self_sources d; self_docs := self_docs d;
     self_docs_embs := v;
     self_retrieve_top_k := self_retrieve_top_k d;
     self_rerank_top_k := self_rerank_top_k d;
     self_docs_len := self_docs_len d; self_index := self_index d |}.

Definition with_docs_len (d : Self) (v : nat) : Self :=
  {| self_sources := self_sources d; self_docs := self_docs d;
     self_docs_embs := self_docs_embs d;
     self_retrieve_top_k := self_retrieve_top_k d;
     self_rerank_top_k := self_rerank_top_k d;
     self_docs_len := Some v; self_index := self_index d |}.

Definition with_index (d : Self) (v : Index) : Self :=
  {| self_sources := self_sources d; self_docs := self_docs d;
     self_docs_embs := self_docs_embs d;
     self_retrieve_top_k := self_retrieve_top_k d;
     self_rerank_top_k := self_rerank_top_k d;
     self_docs_len := self_docs_len d; self_index := Some v |}.

(** Reading an attribute that was never assigned. *)
Definition attr {A} (name : string) (o : option A) : M A :=
  match o with
  | Some a => ret a
  | None => raise (AttributeError name)
  end.

(** [self.co.embed(texts=..., model=..., input_type=...).embeddings] *)
Definition call_embed (texts : list json) (model input_type : string)
  : M (list Vec) :=
  fun w =>
    ({| self := self w;
        trace := trace w ++ [EvEmbed texts model input_type] |},
     co_embed (trace w) texts model input_type).

(** [self.co.rerank(query=..., documents=..., top_n=..., model=...)] *)
Definition call_rerank (query : string) (documents : list json)
    (top_n : nat) (model : string) : M (list RerankResult.t) :=
  fun w =>
    ({| self := self w;
        trace := trace w ++ [EvRerank query documents top_n model] |},
     co_rerank (trace w) query documents top_n model).

(** The inner loop of [load]: the list [article_dict] of one article.
    [article["Title"]] is read once per text section. *)
Definition article_passages (article : json) : Res (list Passage) :=
  res_bind (py_getitem article "FullText") (fun full_text =>
  res_bind (py_iter full_text) (fun texts =>
  res_mapM (fun text =>
    res_bind (py_getitem article "Title") (fun t =>
    Ok {| title := t; text := text |})) texts)).

(** The outer loop of [load], with its counter [max_articles]. *)
Fixpoint load_loop (articles : list json) (max_articles : Z) : M unit :=
  match articles with
  | [] => ret tt
  | article :: rest =>
      if (max_articles =? 0)%Z then ret tt
      else
        let* article_dict := lift (article_passages article) in
        let* d := get_self in
        set_self (with_docs d (self_docs d ++ article_dict)) >>
        load_loop rest (max_articles - 1)%Z
  end.

Definition load (max_articles : Z) : M unit :=
  emit (EvOpen "datasets/xray_articles.json") >>
  let* doc := lift (open_json "datasets/xray_articles.json") in
  let* articles := lift (py_iter doc) in
  load_loop articles max_articles.

(** One round of the loop of [embed]: the batch that starts at [i].
    [docs_len] is [self.docs_len], which the loop does not assign. *)
Definition embed_batch (batch_size docs_len i : nat) : M unit :=
  let* d := get_self in
  let batch := py_slice (self_docs d) i (min (i + batch_size) docs_len) in
  let texts := map text batch in
  let* docs_embs_batch :=
    call_embed texts "embed-english-v3.0" "search_document" in
  let* d := get_self in
  set_self (with_docs_embs d (self_docs_embs d ++ docs_embs_batch)).

(** The body of [embed] for a batch size; [embed] runs it with 90. *)
Definition embed_batches (batch_size : nat) : M unit :=
  let* d := get_self in
  let docs_len := length (self_docs d) in
  set_self (with_docs_len d docs_len) >>
  let* starts := lift (py_range 0 docs_len batch_size) in
  for_each starts (embed_batch batch_size docs_len).

Definition embed : M unit := embed_batches 90.

Definition index : M unit :=
  let* d := get_self in
  let fresh := hnsw_Index "ip" 1024 in
  set_self (with_index d fresh) >>
  let* d := get_self in
  let* docs_len := attr "docs_len" (self_docs_len d) in
  emit (EvInitIndex docs_len 512 64) >>
  let* sized := lift (init_index fresh docs_len 512 64) in
  set_self (with_index d sized) >>
  let* d := get_self in
  let ids := seq 0 (length (self_docs_embs d)) in
  emit (EvAddItems (length (self_docs_embs d)) ids) >>
  let* filled := lift (add_items sized (self_docs_embs d) ids) in
  set_self (with_index d filled).

(** [self.docs[doc_id]] for a label of the index. *)
Definition doc_at (docs : list Passage) (doc_id : nat) : Res Passage :=
  py_index docs (Z.of_nat doc_id).

(** The three loops of [retrieve]: the texts of the candidates, the
    labels picked by the rerank, and the passages returned. *)
Definition texts_to_rerank (docs : list Passage) (doc_ids : list nat)
  : Res (list json) :=
  res_mapM (fun doc_id =>
    res_bind (doc_at docs doc_id) (fun p => Ok (text p))) doc_ids.

Definition reranked_ids (doc_ids : list nat)
    (rerank_results : list RerankResult.t) : Res (list nat) :=
  res_mapM (fun result => py_index doc_ids (RerankResult.index result))
           rerank_results.

Definition retrieved (docs : list Passage) (doc_ids_reranked : list nat)
  : Res (list Passage) :=
  res_mapM (fun doc_id =>
    res_bind (doc_at docs doc_id) (fun p1 =>
    res_bind (doc_at docs doc_id) (fun p2 =>
    Ok {| title := title p1; text := text p2 |}))) doc_ids_reranked.

Definition retrieve (query : string) : M (list Passage) :=
  let* query_emb :=
    call_embed [JStr query] "embed-english-v3.0" "search_query" in
  let* d := get_self in
  let* idx := attr "knn_query" (self_index d) in
  emit (EvKnnQuery (self_retrieve_top_k d)) >>
  let* labels := lift (knn_query idx query_emb (self_retrieve_top_k d)) in
  let* doc_ids := lift (py_index labels 0%Z) in
  let* docs_to_rerank := lift (texts_to_rerank (self_docs d) doc_ids) in
  let* rerank_results :=
    call_rerank query docs_to_rerank (self_rerank_top_k d)
                "rerank-english-v2.0" in
  let* doc_ids_reranked := lift (reranked_ids doc_ids rerank_results) in
  lift (retrieved (self_docs d) doc_ids_reranked).

(** [Documents(sources, co)] *)
Definition init (sources : Sources) : M unit :=
  set_self {| self_sources := sources; self_docs := []; self_docs_embs := [];
              self_retrieve_top_k := 500; self_rerank_top_k := 100;
              self_docs_len := None; self_index := None |} >>
  load 500 >> embed >> index.
End Methods.
End Documents.

(** ** A mocked backend

    A client whose embedding of a text is its length and whose rerank
    returns the candidates in reverse input order, and an index that keeps
    its items in a list and answers a query with its [k] newest labels. *)

Module Mock.
Definition vec_of (t : json) : nat :=
  match t with
  | JStr s => String.length s
  | _ => 0
  end.

Definition reversed (n top_n : nat) : list RerankResult.t :=
  map (fun i => {| RerankResult.index := Z.of_nat i |})
      (take top_n (reverse (seq 0 n))).

#[global] Instance client : CohereClient nat := {
  co_embed _ texts _ _ := Ok (map vec_of texts);
  co_rerank _ _ documents top_n _ := Ok (reversed (length documents) top_n)
}.

(** A client whose rerank is out of service. *)
Definition no_rerank : CohereClient nat := {|
  co_embed _ texts _ _ := Ok (map vec_of texts);
  co_rerank _ _ _ _ _ := Raise (BackendError "rerank unavailable")
|}.

Record index : Type := { capacity : nat; items : list (nat * nat) }.

#[global] Instance library : Hnswlib nat index := {
  hnsw_Index _ _ := {| capacity := 0; items := [] |};
  init_index _ max_elements _ _ := Ok {| capacity := max_elements; items := [] |};
  add_items idx data ids :=
    Ok {| capacity := capacity idx; items := items idx ++ combine ids data |};
  knn_query idx queries k :=
    Ok (map (fun _ => take k (reverse (map fst (items idx)))) queries);
  get_current_count idx := length (items idx)
}.

Definition article (t : string) (sections : list string) : json :=
  JObj [("Title", JStr t); ("FullText", JArr (map JStr sections))].

(** The dataset file holds two articles, "A" with three sections and "B"
    with two. *)
Definition dataset : json :=
  JArr [article "A" ["a0"; "a1"; "a2"]; article "B" ["b0"; "b1"]].

Definition open_json (path : string) : Res json :=
  if String.eqb path "datasets/xray_articles.json" then Ok dataset
  else Raise OSError.

Definition blank : World nat index :=
  {| self := {| self_sources := None; self_docs := []; self_docs_embs := [];
                self_retrieve_top_k := 0; self_rerank_top_k := 0;
                self_docs_len := None; self_index := None |};
     trace := [] |}.

(** The world after [Documents(None, co)]. *)
Definition built : World nat index :=
  fst (Documents.init open_json None blank).

Definition with_top_k (retrieve_top_k rerank_top_k : nat)
    (w : World nat index) : World nat index :=
  {| self := {| self_sources := self_sources (self w);
                self_docs := self_docs (self w);
                self_docs_embs := self_docs_embs (self w);
                self_retrieve_top_k := retrieve_top_k;
                self_rerank_top_k := rerank_top_k;
                self_docs_len := self_docs_len (self w);
                self_index := self_index (self w) |};
     trace := trace w |}.
End Mock.

(** The store of the mocked dataset, and the world of the scenario with
    [retrieve_top_k = 3] and [rerank_top_k = 2]. *)
Definition passage (t s : string) : Passage :=
  {| title := JStr t; text := JStr s |}.

Definition five_passages : list Passage :=
  [passage "A" "a0"; passage "A" "a1"; passage "A" "a2";
   passage "B" "b0"; passage "B" "b1"].

Definition scenario : World nat Mock.index := Mock.with_top_k 3 2 Mock.built.

Definition scenario_index : Mock.index :=
  {| Mock.capacity := 5;
     Mock.items := [(0, 2); (1, 2); (2, 2); (3, 2); (4, 2)] |}.

(** ** Vocabulary of the statements *)

Section Vocabulary.
Context {Vec Index : Type}.

Abbreviation World' := (World Vec Index).

(** The world in which [self.docs] has been extended by [ps]. *)
Definition extended (w : World') (ps : list Passage) : World' :=
  {| self := Documents.with_docs (self w) (self_docs (self w) ++ ps);
     trace := trace w |}.

(** The world after the dataset file was opened. *)
Definition opened (w : World') : World' :=
  {| self := self w;
     trace := trace w ++ [EvOpen "datasets/xray_articles.json"] |}.

(** The passages of an article that has the title [t] and the text
    sections [sections]. *)
Definition passages_of (t : json) (sections : list json) : list Passage :=
  map (fun s => {| title := t; text := s |}) sections.

(** An article read as the pair of its title and its text sections. *)
Definition reads_as (article : json) (v : json * list json) : Prop :=
  py_getitem article "Title" = Ok (fst v) /\
  res_bind (py_getitem article "FullText") py_iter = Ok (snd v).

(** The article is a JSON object without the field [key]. *)
Definition lacks (key : string) (article : json) : Prop :=
  exists fields, article = JObj fields /\ assoc key fields = None.

(** A collection with an entry that misses the title or the list of text
    sections. *)
Definition malformed (articles : list json) : Prop :=
  Exists (fun a => lacks "Title" a \/ lacks "FullText" a) articles.

(** The event of the embedding call for a batch. *)
Definition embed_event (batch : list Passage) : Event :=
  EvEmbed (map text batch) "embed-english-v3.0" "search_document".

(** The events of [retrieve]: the embedding of the query and the rerank
    of the candidate texts. *)
Definition query_event (query : string) : Event :=
  EvEmbed [JStr query] "embed-english-v3.0" "search_query".

Definition rerank_event (query : string) (documents : list json)
    (top_n : nat) : Event :=
  EvRerank query documents top_n "rerank-english-v2.0".

(** The world after the calls [evs]; the object is as before. *)
Definition after (w : World') (evs : list Event) : World' :=
  {| self := self w; trace := trace w ++ evs |}.

(** The events a computation added to the trace of [w]. *)
Definition new_events (w w' : World') : list Event :=
  drop (length (trace w)) (trace w').

(** The object, and the world, with [self.sources] replaced. *)
Definition with_sources (d : Documents Vec Index) (s : Sources)
  : Documents Vec Index :=
  {| self_sources := s; self_docs := self_docs d;
     self_docs_embs := self_docs_embs d;
     self_retrieve_top_k := self_retrieve_top_k d;
     self_rerank_top_k := self_rerank_top_k d;
     self_docs_len := self_docs_len d; self_index := self_index d |}.

Definition resourced (s : Sources) (w : World') : World' :=
  {| self := with_sources (self w) s; trace := trace w |}.

(** [m2] does in a world with the sources [s] what [m1] does in the same
    world with other sources: same outcome, same calls, same object up to
    the sources. *)
Definition sim {A} (s : Sources) (m1 m2 : M (Vec:=Vec) (Index:=Index) A)
  : Prop :=
  forall w, m2 (resourced s w) = (resourced s (fst (m1 w)), snd (m1 w)).

(** A file system that holds the dataset file of [open_json] and nothing
    else. *)
Definition only_dataset (open_json : string -> Res json) (path : string)
  : Res json :=
  if String.eqb path "datasets/xray_articles.json" then open_json path
  else Raise OSError.

(** The number of text sections of the articles [view]. *)
Definition section_count (view : list (json * list json)) : nat :=
  sum_list_with (fun v => length (snd v)) view.
End Vocabulary.

(** The contracts of the external parts that some statements rely on. *)
Section Contracts.
Context {Vec Index : Type}.
Context {co : CohereClient Vec} {hnswlib : Hnswlib Vec Index}.

(** The passages [picked] stand in the store at the positions
    [doc_ids]. *)
Definition resolved (docs : list Passage) (doc_ids : list nat)
    (picked : list Passage) : Prop :=
  Forall2 (fun id p => docs !! id = Some p) doc_ids picked.

(** A rerank item that points into a list of [len] candidates, from the
    front or, when negative, from the back. *)
Definition in_range (len : nat) (r : RerankResult.t) : Prop :=
  (- Z.of_nat len <= RerankResult.index r < Z.of_nat len)%Z.

(** Modelled from the spec: the rerank capability, which is not part of the
    sources, gives a ranking of the candidates, that is at most [top_n]
    items, each the position of a candidate, none twice. *)
Definition rerank_contract : Prop :=
  forall h q documents top_n model rr,
    co_rerank h q documents top_n model = Ok rr ->
    length rr <= top_n /\
    NoDup (map RerankResult.index rr) /\
    Forall (fun r => (0 <= RerankResult.index r
                      < Z.of_nat (length documents))%Z) rr.

(** Modelled from the spec: the search of the index, which is not part of
    the sources, gives at most [k] labels per query, none twice. *)
Definition search_contract (idx : Index) : Prop :=
  forall queries k rows,
    knn_query idx queries k = Ok rows ->
    Forall (fun row => length row <= k /\ NoDup row) rows.

(** The client answers a request the same way whatever came before. *)
Definition deterministic_backend : Prop :=
  (forall h h' texts model input_type,
     co_embed h texts model input_type = co_embed h' texts model input_type) /\
  (forall h h' q documents top_n model,
     co_rerank h q documents top_n model = co_rerank h' q documents top_n model).
End Contracts.

(** ** The class [Chatbot] and the command loop

    The chat capability is a further interface of the client.  A chat
    request lists the keyword arguments of [co.chat]; an argument that a
    call leaves out is [None] (or [false] for a flag). *)

(** A [Dict[str, str]]: the items of the dict. *)
Fixpoint dict_lookup (key : string) (items : list (string * string))
  : option string :=
  match items with
  | [] => None
  | (k, v) :: rest => if String.eqb k key then Some v else dict_lookup key rest
  end.

(** [d[key]] *)
Definition dict_getitem (d : list (string * string)) (key : string)
  : Res string :=
  match dict_lookup key d with
  | Some v => Ok v
  | None => Raise (KeyError key)
  end.

Record ChatCall : Type := {
  chat_message : string;
  chat_search_queries_only : bool;
  chat_documents : option (list Passage);
  chat_conversation_id : option string;
  chat_stream : bool;
  chat_chat_history : option (list (list (string * string)));
  chat_max_tokens : option nat
}.

(** The chat capability.  An answer may depend on the calls made through
    the [Documents] object and on the chat requests made so far.
    [search_queries] and [response_text] read the attributes
    [.search_queries] and [.text] of a response. *)
Class CohereChat (Response : Type) : Type := {
  co_chat : list Event -> list ChatCall -> ChatCall -> Res Response;
  search_queries : Response -> option (list (list (string * string)));
  response_text : Response -> Res string
}.

(** A [Chatbot] object: the [Documents] object it refers to, with the calls
    made through it, its conversation id, and the chat requests made. *)
Record ChatWorld (Vec Index : Type) : Type := {
  docs_world : World Vec Index;
  conversation_id : string;
  chats : list ChatCall
}.
Arguments docs_world {Vec Index} _.
Arguments conversation_id {Vec Index} _.
Arguments chats {Vec Index} _.

Section ChatMonad.
Context {Vec Index : Type}.

Definition C (A : Type) : Type :=
  ChatWorld Vec Index -> ChatWorld Vec Index * Res A.

Definition cret {A} (a : A) : C A := fun cw => (cw, Ok a).

Definition cbind {A B} (m : C A) (k : A -> C B) : C B :=
  fun cw =>
    match m cw with
    | (cw', Ok a) => k a cw'
    | (cw', Raise e) => (cw', Raise e)
    end.

Definition clift {A} (r : Res A) : C A := fun cw => (cw, r).

Definition get_conversation_id : C string :=
  fun cw => (cw, Ok (conversation_id cw)).

(** A method of [self.docs] run from the chatbot. *)
Definition in_docs {A} (m : M (Vec:=Vec) (Index:=Index) A) : C A :=
  fun cw =>
    let (w', r) := m (docs_world cw) in
    ({| docs_world := w'; conversation_id := conversation_id cw;
        chats := chats cw |}, r).
End ChatMonad.

Declare Scope chat_scope.
Delimit Scope chat_scope with chat.
Notation "'let*' x ':=' m 'in' k" := (cbind m (fun x => k))
  (at level 10, x name, m at level 100, k at level 200) : chat_scope.

(** The truth value of a list-valued attribute that may be [None]. *)
Definition truthy {A} (o : option (list A)) : bool :=
  match o with
  | Some (_ :: _) => true
  | _ => false
  end.

Module Chatbot.
Section Methods.
Context {Vec Index Response : Type}.
Context {co : CohereClient Vec} {hnswlib : Hnswlib Vec Index}.
Context {chat : CohereChat Response}.

Abbreviation C := (@C Vec Index).

(** [Chatbot(docs, co)]; [uuid] is the text of the identifier that
    [uuid.uuid4()] draws. *)
Definition init (docs : World Vec Index) (uuid : string)
  : ChatWorld Vec Index :=
  {| docs_world := docs; conversation_id := uuid; chats := [] |}.

(** [self.co.chat(...)] *)
Definition call_chat (request : ChatCall) : C Response :=
  fun cw =>
    ({| docs_world := docs_world cw; conversation_id := conversation_id cw;
        chats := chats cw ++ [request] |},
     co_chat (trace (docs_world cw)) (chats cw) request).

(** The second loop of [retrieve_docs]; [retrieved_docs] is the list
    built so far. *)
Fixpoint retrieve_each (queries : list string) (retrieved_docs : list Passage)
  : C (list Passage) :=
  match queries with
  | [] => cret retrieved_docs
  | query :: rest =>
      (let* passages := in_docs (Documents.retrieve query) in
       retrieve_each rest (retrieved_docs ++ passages))%chat
  end.

Definition retrieve_docs (response : Response) : C (list Passage) :=
  (let* found :=
     clift (match search_queries response with
            | Some found => Ok found
            | None => Raise TypeError
            end) in
   let* queries :=
     clift (res_mapM (fun search_query => dict_getitem search_query "text")
                     found) in
   retrieve_each queries [])%chat.

Definition generate_response (message : string)
    (chat_history : option (list (list (string * string))))
    (max_tokens : nat) : C Response :=
  (let* response :=
     call_chat {| chat_message := message; chat_search_queries_only := true;
                  chat_documents := None; chat_conversation_id := None;
                  chat_stream := false; chat_chat_history := None;
                  chat_max_tokens := None |} in
   if truthy (search_queries response) then
     let* documents := retrieve_docs response in
     let* cid := get_conversation_id in
     match chat_history with
     | Some history =>
         call_chat {| chat_message := message;
                      chat_search_queries_only := false;
                      chat_documents := Some documents;
                      chat_conversation_id := Some cid;
                      chat_stream := true;
                      chat_chat_history := Some history;
                      chat_max_tokens := Some max_tokens |}
     | None =>
         call_chat {| chat_message := message;
                      chat_search_queries_only := false;
                      chat_documents := Some documents;
                      chat_conversation_id := Some cid;
                      chat_stream := true;
                      chat_chat_history := None;
                      chat_max_tokens := Some max_tokens |}
     end
   else
     let* cid := get_conversation_id in
     match chat_history with
     | Some history =>
         call_chat {| chat_message := message;
                      chat_search_queries_only := false;
                      chat_documents := None;
                      chat_conversation_id := Some cid;
                      chat_stream := true;
                      chat_chat_history := Some history;
                      chat_max_tokens := Some max_tokens |}
     | None =>
         call_chat {| chat_message := message;
                      chat_search_queries_only := false;
                      chat_documents := None;
                      chat_conversation_id := Some cid;
                      chat_stream := true;
                      chat_chat_history := None;
                      chat_max_tokens := Some max_tokens |}
     end)%chat.
End Methods.
End Chatbot.

(** *** The command loop of the script *)

(** [c.lower()] for a character of ASCII.  Text outside ASCII is left as it
    is, which does not change a comparison with "quit" or "q". *)
Definition lower_char (c : ascii) : ascii :=
  let n := nat_of_ascii c in
  if (65 <=? n) && (n <=? 90) then ascii_of_nat (n + 32) else c.

Fixpoint lower (s : string) : string :=
  match s with
  | EmptyString => EmptyString
  | String c s' => String (lower_char c) (lower s')
  end.

(** The test of the loop: [message.lower() == "quit" or
    message.lower() == "q"]. *)
Definition is_quit (message : string) : bool :=
  String.eqb (lower message) "quit" || String.eqb (lower message) "q".

(** What the script writes with [print]. *)
Inductive Output (Response : Type) : Type :=
| PrintResponse (response : Response)
| PrintText (t : string)
| PrintLine (line : string).
Arguments PrintResponse {Response} response.
Arguments PrintText {Response} t.
Arguments PrintLine {Response} line.

(** How the script ends: the user quits, [input] finds no further line
    ([EOFError]), or an exception of a call reaches the top. *)
Inductive Ending : Type :=
| Quit
| EndOfInput
| Failed (e : Exn).

(** A run of the script: the [Documents] object with its calls, the chat
    requests made, what was printed, the lines of the input that were not
    read, and the ending. *)
Record Run (Vec Index Response : Type) : Type := {
  world : World Vec Index;
  requests : list ChatCall;
  printed : list (Output Response);
  unread : list string;
  ending : Ending
}.
Arguments world {Vec Index Response} _.
Arguments requests {Vec Index Response} _.
Arguments printed {Vec Index Response} _.
Arguments unread {Vec Index Response} _.
Arguments ending {Vec Index Response} _.

Module Main.
Section Script.
Context {Vec Index Response : Type}.
Context {co : CohereClient Vec} {hnswlib : Hnswlib Vec Index}.
Context {chat : CohereChat Response}.

Definition stop (cw : ChatWorld Vec Index) (out : list (Output Response))
    (rest : list string) (e : Ending) : Run Vec Index Response :=
  {| world := docs_world cw; requests := chats cw; printed := out;
     unread := rest; ending := e |}.

(** The [while True] loop over the lines [inputs] of the input. *)
Fixpoint chat_loop (inputs : list string) (cw : ChatWorld Vec Index)
    (out : list (Output Response)) : Run Vec Index Response :=
  match inputs with
  | [] => stop cw out [] EndOfInput
  | message :: rest =>
      if is_quit message
      then stop cw (out ++ [PrintLine "Ending chat."]) rest Quit
      else
        match Chatbot.generate_response message None 500 cw with
        | (cw', Ok response) =>
            match response_text response with
            | Ok t => chat_loop rest cw' (out ++ [PrintText t])
            | Raise e => stop cw' out rest (Failed e)
            end
        | (cw', Raise e) => stop cw' out rest (Failed e)
        end
  end.

End Script.
End Main.

(** A mocked chat: a request for search queries gives none for the message
    "hello" and otherwise the message itself as the one query; any other
    request is answered with "answer". *)
Module MockChat.
Record response : Type := {
  queries : option (list (list (string * string)));
  body : string
}.

Definition ask (request : ChatCall) : Res response :=
  if chat_search_queries_only request then
    if String.eqb (chat_message request) "hello"
    then Ok {| queries := Some []; body := "" |}
    else Ok {| queries := Some [[("text", chat_message request)]]; body := "" |}
  else Ok {| queries := None; body := "answer" |}.

#[global] Instance chat : CohereChat response := {
  co_chat _ _ request := ask request;
  search_queries := queries;
  response_text r := Ok (body r)
}.

(** The chatbot over the built store, with the scenario's depths. *)
Definition bot : ChatWorld nat Mock.index :=
  Chatbot.init (Mock.with_top_k 3 2 Mock.built) "id-1".
End MockChat.

(** *** Further vocabulary *)

(** The batches of [bs] consecutive passages of [docs]. *)
Definition batches_of (bs : nat) (docs : list Passage) : list (list Passage) :=
  map (fun j => take bs (drop (j * bs) docs))
      (seq 0 ((length docs + (bs - 1)) / bs)).

(** The first request of [generate_response], and its second one. *)
Definition search_request (message : string) : ChatCall :=
  {| chat_message := message; chat_search_queries_only := true;
     chat_documents := None; chat_conversation_id := None;
     chat_stream := false; chat_chat_history := None;
     chat_max_tokens := None |}.

Definition answer_request (message : string)
    (documents : option (list Passage)) (cid : string)
    (chat_history : option (list (list (string * string))))
    (max_tokens : nat) : ChatCall :=
  {| chat_message := message; chat_search_queries_only := false;
     chat_documents := documents; chat_conversation_id := Some cid;
     chat_stream := true; chat_chat_history := chat_history;
     chat_max_tokens := Some max_tokens |}.

(** The chatbot after the chat requests [new]. *)
Definition chatted {Vec Index} (cw : ChatWorld Vec Index) (new : list ChatCall)
  : ChatWorld Vec Index :=
  {| docs_world := docs_world cw; conversation_id := conversation_id cw;
     chats := chats cw ++ new |}.

(** The chatbot with its [Documents] object in the world [w]. *)
Definition with_docs_world {Vec Index} (cw : ChatWorld Vec Index)
    (w : World Vec Index) : ChatWorld Vec Index :=
  {| docs_world := w; conversation_id := conversation_id cw;
     chats := chats cw |}.

(** The turns that answer the lines [messages], from the chatbot [cw]: each
    line is one call of [generate_response] without a chat history and
    with [max_tokens = 500], on the chatbot as the turn before left it, that
    ends well and gives a response with a text.  [texts] are the texts of
    the responses, in order, and [cw'] is the chatbot after the last
    turn. *)
Section Turns.
Context {Vec Index Response : Type}.
Context {co : CohereClient Vec} {hnswlib : Hnswlib Vec Index}.
Context {chat : CohereChat Response}.

Fixpoint turns (messages : list string) (cw : ChatWorld Vec Index)
    (texts : list string) (cw' : ChatWorld Vec Index) : Prop :=
  match messages, texts with
  | [], [] => cw' = cw
  | message :: rest, t :: ts =>
      exists cw1 response,
        Chatbot.generate_response message None 500 cw = (cw1, Ok response) /\
        response_text response = Ok t /\
        turns rest cw1 ts cw'
  | _, _ => False
  end.
End Turns.

(** Backends and worlds with a fault, for the scenarios. *)
Module Faults.
(** A client that embeds once and then is out of service. *)
Definition embeds_once : CohereClient nat := {|
  co_embed h texts _ _ :=
    match h with
    | [] => Ok (map Mock.vec_of texts)
    | _ => Raise (BackendError "embed unavailable")
    end;
  co_rerank _ _ documents top_n _ :=
    Ok (Mock.reversed (length documents) top_n)
|}.

(** A client whose rerank points past the candidates. *)
Definition wild_rerank : CohereClient nat := {|
  co_embed _ texts _ _ := Ok (map Mock.vec_of texts);
  co_rerank _ _ documents _ _ :=
    Ok [{| RerankResult.index := Z.of_nat (length documents) |}]
|}.

(** The five passages in a store that was neither embedded nor indexed. *)
Definition loaded : World nat Mock.index :=
  {| self := {| self_sources := None; self_docs := five_passages;
                self_docs_embs := [];
                self_retrieve_top_k := 500; self_rerank_top_k := 100;
                self_docs_len := None; self_index := None |};
     trace := [] |}.

(** The scenario with an index that knows a label 7, which is no position
    of the store. *)
Definition stale : World nat Mock.index :=
  {| self := {| self_sources := None; self_docs := five_passages;
                self_docs_embs := [2; 2; 2; 2; 2];
                self_retrieve_top_k := 3; self_rerank_top_k := 2;
                self_docs_len := Some 5;
                self_index :=
                  Some {| Mock.capacity := 5; Mock.items := [(0, 2); (7, 2)] |} |};
     trace := [] |}.

(** An index library that refuses an empty list of vectors, as hnswlib
    does: it takes the list for one vector without features, which is not
    of the dimension of the index.  Otherwise it is the mocked library. *)
Definition strict : Hnswlib nat Mock.index := {|
  hnsw_Index _ _ := {| Mock.capacity := 0; Mock.items := [] |};
  init_index _ max_elements _ _ :=
    Ok {| Mock.capacity := max_elements; Mock.items := [] |};
  add_items idx data ids :=
    match data with
    | [] => Raise (RuntimeError "Wrong dimensionality of the vectors")
    | _ :: _ =>
        Ok {| Mock.capacity := Mock.capacity idx;
              Mock.items := Mock.items idx ++ combine ids data |}
    end;
  knn_query idx queries k :=
    Ok (map (fun _ => take k (reverse (map fst (Mock.items idx)))) queries);
  get_current_count idx := length (Mock.items idx)
|}.

(** A response with the search queries [found]. *)
Definition searching (found : list (list (string * string)))
  : MockChat.response :=
  {| MockChat.queries := Some found; MockChat.body := "" |}.
End Faults.

(** ** General facts about results and worlds *)

Ltac tidy :=
  cbn [self trace res_bind]; rewrite <- ?app_assoc; cbn [app].

Lemma world_eta {Vec Index} (w : World Vec Index) :
  {| self := self w; trace := trace w |} = w.
Proof. by destruct w. Qed.

Lemma with_docs_same {Vec Index} (d : Documents Vec Index) :
  Documents.with_docs d (self_docs d) = d.
Proof. by destruct d. Qed.

Lemma res_mapM_Forall2 {A B} (f : A -> Res B) (l : list A) (ys : list B) :
  res_mapM f l = Ok ys <-> Forall2 (fun x y => f x = Ok y) l ys.
Proof.
  revert ys. induction l as [|x l IH]; intros ys; simpl.
  - split.
    + intros [= <-]. constructor.
    + by inversion 1.
  - split.
    + destruct (f x) as [y|] eqn:Hx; simpl; [|done].
      destruct (res_mapM f l) as [ys'|] eqn:Hl; simpl; [|done].
      intros [= <-]. constructor; [done|]. by apply IH.
    + inversion 1 as [|? y ? ys' Hx Hl]; subst.
      rewrite Hx. simpl. apply IH in Hl. by rewrite Hl.
Qed.

Lemma res_mapM_length {A B} (f : A -> Res B) (l : list A) (ys : list B) :
  res_mapM f l = Ok ys -> length ys = length l.
Proof.
  intros H. apply res_mapM_Forall2 in H. symmetry. by eapply Forall2_length.
Qed.

(** ** [load] *)

Section LoadProperties.
Context {Vec Index : Type}.
Variable open_json : string -> Res json.

Abbreviation World' := (World Vec Index).
Abbreviation load := (@Documents.load Vec Index open_json).
Abbreviation load_loop := (@Documents.load_loop Vec Index).

Lemma extended_nil (w : World') : extended w [] = w.
Proof.
  unfold extended. rewrite app_nil_r, with_docs_same. apply world_eta.
Qed.

Lemma extended_app (w : World') ps qs :
  extended (extended w ps) qs = extended w (ps ++ qs).
Proof. unfold extended. simpl. by rewrite app_assoc. Qed.

Lemma article_passages_reads_as article v :
  reads_as article v ->
  Documents.article_passages article = Ok (passages_of (fst v) (snd v)).
Proof.
  intros [Ht Hs]. unfold Documents.article_passages.
  destruct (py_getitem article "FullText") as [ft|]; simpl in *; [|done].
  rewrite Hs. simpl. rewrite Ht. clear Hs.
  unfold passages_of. induction (snd v) as [|s ss IH]; simpl in *; [done|].
  by rewrite IH.
Qed.

Lemma load_loop_cons a rest (n : Z) (w : World') :
  load_loop (a :: rest) n w =
  if (n =? 0)%Z then (w, Ok tt)
  else match Documents.article_passages a with
       | Ok ps => load_loop rest (n - 1)%Z (extended w ps)
       | Raise e => (w, Raise e)
       end.
Proof.
  simpl. destruct (n =? 0)%Z; [done|].
  unfold bind, lift, get_self, set_self.
  by destruct (Documents.article_passages a).
Qed.

(** The loop over the first [n] articles when each of them loads. *)
Lemma load_loop_take articles (n : nat) pss (w : World') :
  res_mapM Documents.article_passages (take n articles) = Ok pss ->
  load_loop articles (Z.of_nat n) w = (extended w (concat pss), Ok tt).
Proof.
  revert n pss w. induction articles as [|a articles IH]; intros n pss w.
  - rewrite take_nil. intros [= <-]. simpl. by rewrite extended_nil.
  - rewrite load_loop_cons. destruct n as [|n].
    + intros [= <-]. simpl. by rewrite extended_nil.
    + destruct (Z.eqb_spec (Z.of_nat (S n)) 0); [lia|].
      simpl take. simpl res_mapM.
      destruct (Documents.article_passages a) as [ps|]; simpl; [|done].
      destruct (res_mapM _ (take n articles)) as [pss'|] eqn:Hl; simpl; [|done].
      intros [= <-].
      replace (Z.of_nat (S n) - 1)%Z with (Z.of_nat n) by lia.
      rewrite (IH n pss'); [|done].
      by rewrite extended_app.
Qed.

(** The loop stops at the first article that raises, keeping the passages
    of the articles before it. *)
Lemma load_loop_raise pre a post (n : nat) pss e (w : World') :
  length pre < n ->
  res_mapM Documents.article_passages pre = Ok pss ->
  Documents.article_passages a = Raise e ->
  load_loop (pre ++ a :: post) (Z.of_nat n) w =
  (extended w (concat pss), Raise e).
Proof.
  revert n pss w. induction pre as [|b pre IH]; intros n pss w Hn Hpre Ha.
  - injection Hpre as <-. simpl app. rewrite load_loop_cons.
    destruct (Z.eqb_spec (Z.of_nat n) 0); [simpl in Hn; lia|].
    rewrite Ha. by rewrite extended_nil.
  - simpl in Hpre.
    destruct (Documents.article_passages b) as [ps|] eqn:Hb; simpl in Hpre; [|done].
    destruct (res_mapM _ pre) as [pss'|] eqn:Hl; simpl in Hpre; [|done].
    injection Hpre as <-. simpl in Hn.
    rewrite <- app_comm_cons, load_loop_cons.
    destruct (Z.eqb_spec (Z.of_nat n) 0); [lia|].
    rewrite Hb.
    replace (Z.of_nat n - 1)%Z with (Z.of_nat (n - 1)) by lia.
    rewrite (IH (n - 1) pss'); [|lia|done|done].
    by rewrite extended_app.
Qed.

(** A negative counter never reaches zero: every article is loaded. *)
Lemma load_loop_negative articles (n : Z) pss (w : World') :
  (n < 0)%Z ->
  res_mapM Documents.article_passages articles = Ok pss ->
  load_loop articles n w = (extended w (concat pss), Ok tt).
Proof.
  revert n pss w. induction articles as [|a articles IH]; intros n pss w Hn.
  - intros [= <-]. simpl. by rewrite extended_nil.
  - rewrite load_loop_cons. simpl res_mapM.
    destruct (Z.eqb_spec n 0); [lia|].
    destruct (Documents.article_passages a) as [ps|]; simpl; [|done].
    destruct (res_mapM _ articles) as [pss'|] eqn:Hl; simpl; [|done].
    intros [= <-].
    rewrite (IH (n - 1)%Z pss'); [|lia|done].
    by rewrite extended_app.
Qed.

Lemma load_unfold max_articles (w : World') :
  load max_articles w =
  match res_bind (open_json "datasets/xray_articles.json") py_iter with
  | Ok articles => load_loop articles max_articles (opened w)
  | Raise e => (opened w, Raise e)
  end.
Proof.
  unfold Documents.load, bind, emit, lift. simpl.
  destruct (open_json _) as [doc|]; simpl; [|done].
  by destruct (py_iter doc).
Qed.

Lemma passages_lookup (view : list (json * list json)) k v j s :
  view !! k = Some v -> snd v !! j = Some s ->
  flat_map (fun v => passages_of (fst v) (snd v)) view
    !! (section_count (take k view) + j)
  = Some {| title := fst v; text := s |}.
Proof.
  revert k. induction view as [|v0 view IH]; intros k Hk Hj; [done|].
  destruct k as [|k]; simpl in *.
  - injection Hk as ->. rewrite lookup_app_l.
    + unfold passages_of. by rewrite list_lookup_fmap, Hj.
    + unfold passages_of. rewrite length_map. by eapply lookup_lt_Some.
  - unfold section_count in *. simpl.
    rewrite lookup_app_r; unfold passages_of; rewrite length_map; [|lia].
    replace (length (snd v0) + sum_list_with (fun v => length (snd v)) (take k view)
             + j - length (snd v0))
      with (sum_list_with (fun v => length (snd v)) (take k view) + j) by lia.
    by apply IH.
Qed.

Lemma passages_length (view : list (json * list json)) :
  length (flat_map (fun v => passages_of (fst v) (snd v)) view)
  = section_count view.
Proof.
  unfold section_count. induction view as [|v view IH]; simpl; [done|].
  rewrite length_app, IH. unfold passages_of. by rewrite length_map.
Qed.

(** C4. When the first [n] entries of the dataset each have a title and a
    list of text sections, [load] with [max_articles = n] on an empty
    store returns with one passage per text section of these entries, in
    order: the store has as many passages as there are sections, and
    section [j] of entry [k] stands at the position given by the number of
    sections before it, under the title of entry [k]. *)
Theorem load_one_passage_per_section
    (arts : list json) (n : nat) (view : list (json * list json))
    (w : World') :
  res_bind (open_json "datasets/xray_articles.json") py_iter = Ok arts ->
  Forall2 reads_as (take n arts) view ->
  self_docs (self w) = [] ->
  exists w',
    load (Z.of_nat n) w = (w', Ok tt) /\
    self_docs (self w') = flat_map (fun v => passages_of (fst v) (snd v)) view /\
    length (self_docs (self w')) = section_count view /\
    (forall i, i < section_count view <-> is_Some (self_docs (self w') !! i)) /\
    (forall k v j s, view !! k = Some v -> snd v !! j = Some s ->
       self_docs (self w') !! (section_count (take k view) + j)
       = Some {| title := fst v; text := s |}).
Proof.
  intros Hfile Hview Hempty.
  assert (Hall : res_mapM Documents.article_passages (take n arts)
                 = Ok (map (fun v => passages_of (fst v) (snd v)) view)).
  { apply res_mapM_Forall2. apply Forall2_fmap_r.
    eapply Forall2_impl; [exact Hview|].
    intros a v Hav. by apply article_passages_reads_as. }
  eexists. rewrite load_unfold, Hfile.
  split; [by apply load_loop_take|].
  simpl. rewrite Hempty. simpl. rewrite <- flat_map_concat_map.
  split; [done|]. split; [apply passages_length|]. split.
  - intros i. rewrite <- passages_length. symmetry. apply lookup_lt_is_Some.
  - apply passages_lookup.
Qed.

(** C8 (as amended). When the entries before an entry [a] among the first
    [n] load, and [a] is an object without the list of text sections, or
    without the title while it has at least one text section, [load]
    raises the [KeyError] of the missing key.  The passages of the entries
    before [a] stay in the store and nothing is recovered. *)
Theorem load_missing_field_raises
    (pre : list json) (a : json) (post : list json) (n : nat)
    (pss : list (list Passage)) (key : string) (w : World') :
  res_bind (open_json "datasets/xray_articles.json") py_iter
    = Ok (pre ++ a :: post) ->
  length pre < n ->
  res_mapM Documents.article_passages pre = Ok pss ->
  (key = "FullText" /\ lacks "FullText" a) \/
  (key = "Title" /\ lacks "Title" a /\
   exists s ss, res_bind (py_getitem a "FullText") py_iter = Ok (s :: ss)) ->
  load (Z.of_nat n) w
  = (extended (opened w) (concat pss), Raise (KeyError key)).
Proof.
  intros Hfile Hn Hpre Hkey.
  rewrite load_unfold, Hfile.
  apply load_loop_raise; [done|done|].
  unfold Documents.article_passages.
  destruct Hkey as [[-> (fields & -> & Hnone)]
                   |[-> [(fields & -> & Hnone) (s & ss & Hsec)]]].
  - simpl. by rewrite Hnone.
  - destruct (py_getitem (JObj fields) "FullText") as [ft|]; simpl in *; [|done].
    rewrite Hsec. simpl. by rewrite Hnone.
Qed.
End LoadProperties.

(** ** [embed] *)

Section EmbedProperties.
Context {Vec Index : Type} {co : CohereClient Vec}.

Abbreviation World' := (World Vec Index).
Abbreviation embed_batches := (@Documents.embed_batches Vec Index co).

(** Slices of width [bs] taken at the multiples of [bs]. *)
Lemma py_slice_take {A} (l : list A) (bs j : nat) :
  py_slice l (j * bs) (min (j * bs + bs) (length l)) = take bs (drop (j * bs) l).
Proof.
  unfold py_slice.
  destruct (Nat.le_gt_cases (j * bs + bs) (length l)) as [Hle|Hgt].
  - f_equal. lia.
  - rewrite Nat.min_r by lia.
    rewrite !take_ge; [done| |]; rewrite length_drop; lia.
Qed.

Lemma concat_slices {A} (l : list A) (bs a c : nat) :
  concat (map (fun j => take bs (drop (j * bs) l)) (seq a c))
  = take (c * bs) (drop (a * bs) l).
Proof.
  revert a. induction c as [|c IH]; intros a; simpl; [done|].
  rewrite IH. rewrite <- take_take_drop. f_equal.
  rewrite drop_drop. do 2 f_equal. lia.
Qed.

Lemma ceil_div_covers (len bs : nat) :
  0 < bs -> len <= (len + (bs - 1)) / bs * bs.
Proof.
  intros Hbs.
  pose proof (Nat.div_mod_eq (len + (bs - 1)) bs) as Hd.
  pose proof (Nat.mod_upper_bound (len + (bs - 1)) bs) as Hm.
  nia.
Qed.

Lemma ceil_div_tight (len bs j : nat) :
  0 < bs -> j < (len + (bs - 1)) / bs -> j * bs < len.
Proof.
  intros Hbs Hj.
  pose proof (Nat.div_mod_eq (len + (bs - 1)) bs) as Hd.
  nia.
Qed.

Section Loop.
Variable embeds : json -> Vec -> Prop.
Variable bs : nat.
Hypothesis bs_pos : 0 < bs.
Hypothesis co_embed_documents :
  forall h texts, length texts <= bs ->
    exists vs,
      co_embed h texts "embed-english-v3.0" "search_document" = Ok vs /\
      Forall2 embeds texts vs.

Variable docs : list Passage.

Abbreviation loop_body :=
  (@Documents.embed_batch Vec Index co bs (length docs)).

Lemma loop_body_step (j : nat) (w : World') :
  self_docs (self w) = docs ->
  exists vs,
    Forall2 embeds (map text (take bs (drop (j * bs) docs))) vs /\
    loop_body (0 + j * bs) w =
    ({| self := Documents.with_docs_embs (self w) (self_docs_embs (self w) ++ vs);
        trace := trace w ++ [embed_event (take bs (drop (j * bs) docs))] |},
     Ok tt).
Proof.
  intros Hdocs.
  destruct (co_embed_documents (trace w)
              (map text (take bs (drop (j * bs) docs)))) as (vs & Hvs & Hrel).
  { rewrite length_map, length_take. lia. }
  exists vs. split; [done|].
  unfold Documents.embed_batch, bind, get_self, set_self, Documents.call_embed.
  rewrite Hdocs. change (0 + j * bs) with (j * bs).
  rewrite py_slice_take. cbn [self trace]. by rewrite Hvs.
Qed.

Lemma embed_loop (c a : nat) (w : World') :
  self_docs (self w) = docs ->
  exists w' vs,
    for_each (map (fun j => 0 + j * bs) (seq a c)) loop_body w = (w', Ok tt) /\
    self_docs (self w') = docs /\
    self_docs_embs (self w') = self_docs_embs (self w) ++ vs /\
    trace w' = trace w ++
      map (fun j => embed_event (take bs (drop (j * bs) docs))) (seq a c) /\
    Forall2 embeds (map text (take (c * bs) (drop (a * bs) docs))) vs.
Proof.
  revert a w. induction c as [|c IH]; intros a w Hdocs.
  - exists w, []. simpl. rewrite !app_nil_r. repeat split; done.
  - cbn [seq map for_each].
    destruct (loop_body_step a w Hdocs) as (vs & Hrel & Hstep).
    unfold bind at 1. rewrite Hstep.
    match goal with |- context [for_each _ _ ?w1] =>
      destruct (IH (S a) w1) as (w' & vs' & Hrun & Hd & He & Ht & Hrel')
    end; [done|].
    exists w', (vs ++ vs'). rewrite Hrun. cbn [self trace self_docs_embs
      Documents.with_docs_embs] in He, Ht.
    repeat split; try done.
    + by rewrite He, app_assoc.
    + rewrite Ht. by rewrite <- app_assoc.
    + change (S c * bs) with (bs + c * bs).
      rewrite <- take_take_drop, map_app. apply Forall2_app; [done|].
      rewrite drop_drop.
      by replace (a * bs + bs) with (S a * bs) by lia.
Qed.
End Loop.

(** C3. For a positive batch size [bs] and a backend that embeds up to
    [bs] texts per call, one vector per text and in order, [embed]
    returns; it issues one call per batch of consecutive passages, in
    document mode; the batches are not empty, hold at most [bs] passages
    and make up the passage sequence; and the vectors added to the store
    are the embeddings of the passages, one per passage and in the order
    of the passages.  [Documents.embed] is the case [bs = 90]. *)
Theorem embed_one_vector_per_passage
    (embeds : json -> Vec -> Prop) (bs : nat) (w : World') :
  0 < bs ->
  (forall h texts, length texts <= bs ->
     exists vs,
       co_embed h texts "embed-english-v3.0" "search_document" = Ok vs /\
       Forall2 embeds texts vs) ->
  exists w' batches vs,
    embed_batches bs w = (w', Ok tt) /\
    (bs = 90 -> Documents.embed w = (w', Ok tt)) /\
    concat batches = self_docs (self w) /\
    Forall (fun b => 0 < length b <= bs) batches /\
    trace w' = trace w ++ map embed_event batches /\
    self_docs (self w') = self_docs (self w) /\
    self_docs_embs (self w') = self_docs_embs (self w) ++ vs /\
    Forall2 embeds (map text (self_docs (self w))) vs.
Proof.
  intros Hbs Hco.
  set (docs := self_docs (self w)).
  set (c := (length docs - 0 + (bs - 1)) / bs).
  set (w0 := {| self := Documents.with_docs_len (self w) (length docs);
                trace := trace w |}).
  destruct (embed_loop embeds bs Hbs Hco docs c 0 w0) as
    (w' & vs & Hrun & Hd & He & Ht & Hrel); [done|].
  assert (Hc : length docs <= c * bs).
  { subst c. rewrite Nat.sub_0_r. by apply ceil_div_covers. }
  assert (Hrunb : embed_batches bs w = (w', Ok tt)).
  { unfold Documents.embed_batches, bind at 1. unfold get_self at 1.
    unfold bind at 1. unfold set_self at 1. fold docs. fold w0.
    unfold bind at 1, lift, py_range.
    destruct (Nat.eqb_spec bs 0); [lia|]. fold c. exact Hrun. }
  exists w', (map (fun j => take bs (drop (j * bs) docs)) (seq 0 c)), vs.
  split; [exact Hrunb|]. split; [by intros ->|].
  split.
  { rewrite concat_slices. simpl. by apply take_ge. }
  split.
  { apply Forall_forall. intros b Hb.
    apply list_elem_of_fmap in Hb as (j & -> & Hj).
    apply elem_of_seq in Hj. rewrite length_take, length_drop.
    assert (j * bs < length docs).
    { apply ceil_div_tight; [done|]. subst c. rewrite Nat.sub_0_r in Hj. lia. }
    lia. }
  split; [by rewrite Ht, map_map|].
  split; [done|]. split; [done|].
  simpl in Hrel. by rewrite take_ge in Hrel.
Qed.
End EmbedProperties.

Lemma map_eq_Forall2 {A B C} (f : A -> C) (g : B -> C) l k :
  map f l = map g k -> Forall2 (fun x y => f x = g y) l k.
Proof.
  revert k. induction l as [|x l IH]; intros [|y k]; simpl; try done.
  intros [= Hxy Hlk]. constructor; [done|]. by apply IH.
Qed.

(** ** Indexing a Python list *)

Lemma py_index_nat {A} (l : list A) (i : nat) :
  py_index l (Z.of_nat i) =
  match l !! i with
  | Some x => Ok x
  | None => Raise IndexError
  end.
Proof.
  unfold py_index, py_position.
  destruct (Z.ltb_spec (Z.of_nat i) 0); [lia|].
  destruct (Z.ltb_spec (Z.of_nat i) 0); [lia|].
  by rewrite Nat2Z.id.
Qed.

Lemma py_index_Ok {A} (l : list A) (i : Z) (x : A) :
  py_index l i = Ok x <->
  (0 <= py_position (length l) i)%Z /\
  l !! Z.to_nat (py_position (length l) i) = Some x.
Proof.
  unfold py_index.
  destruct (Z.ltb_spec (py_position (length l) i) 0).
  - split; [done|]. intros [? _]. lia.
  - destruct (l !! _); split; try done.
    + by intros [= ->].
    + by intros [_ [= ->]].
    + by intros [_ ?].
Qed.

Lemma py_index_elem_of {A} (l : list A) (i : Z) (x : A) :
  py_index l i = Ok x -> x ∈ l.
Proof.
  intros [_ H]%py_index_Ok. apply list_elem_of_lookup. eauto.
Qed.

Lemma py_index_in_range {A} (l : list A) (i : Z) :
  (- Z.of_nat (length l) <= i < Z.of_nat (length l))%Z ->
  exists x, py_index l i = Ok x.
Proof.
  intros Hi.
  assert (Hpos : (0 <= py_position (length l) i < Z.of_nat (length l))%Z).
  { unfold py_position. destruct (Z.ltb_spec i 0); lia. }
  destruct (lookup_lt_is_Some_2 l (Z.to_nat (py_position (length l) i)))
    as [x Hx]; [lia|].
  exists x. apply py_index_Ok. split; [lia|done].
Qed.

Lemma py_index_Forall2 {A B} (R : A -> B -> Prop) l1 l2 (i : Z) (x : A) :
  Forall2 R l1 l2 -> py_index l1 i = Ok x ->
  exists y, py_index l2 i = Ok y /\ R x y.
Proof.
  intros HR [Hpos Hx]%py_index_Ok.
  destruct (Forall2_lookup_l _ _ _ _ _ HR Hx) as (y & Hy & Hxy).
  exists y. split; [|done].
  apply py_index_Ok. by rewrite <- (Forall2_length _ _ _ HR).
Qed.

(** ** [retrieve] *)

Section RetrieveProperties.
Context {Vec Index : Type}.
Context {co : CohereClient Vec} {hnswlib : Hnswlib Vec Index}.

Abbreviation World' := (World Vec Index).
Abbreviation retrieve := (@Documents.retrieve Vec Index co hnswlib).

(** [retrieve] step by step: the calls it makes and where it stops. *)
Lemma retrieve_unfold (q : string) (w : World') :
  retrieve q w =
  let d := self w in
  let knn := EvKnnQuery (self_retrieve_top_k d) in
  match co_embed (trace w) [JStr q] "embed-english-v3.0" "search_query" with
  | Raise e => (after w [query_event q], Raise e)
  | Ok query_emb =>
      match self_index d with
      | None => (after w [query_event q], Raise (AttributeError "knn_query"))
      | Some idx =>
          match res_bind (knn_query idx query_emb (self_retrieve_top_k d))
                         (fun labels => py_index labels 0%Z) with
          | Raise e => (after w [query_event q; knn], Raise e)
          | Ok doc_ids =>
              match Documents.texts_to_rerank (self_docs d) doc_ids with
              | Raise e => (after w [query_event q; knn], Raise e)
              | Ok cand =>
                  (after w [query_event q; knn;
                            rerank_event q cand (self_rerank_top_k d)],
                   res_bind
                     (co_rerank (trace w ++ [query_event q; knn]) q cand
                                (self_rerank_top_k d) "rerank-english-v2.0")
                     (fun rr =>
                      res_bind (Documents.reranked_ids doc_ids rr)
                               (Documents.retrieved (self_docs d))))
              end
          end
      end
  end.
Proof.
  unfold Documents.retrieve, bind, Documents.call_embed, get_self,
    Documents.attr, emit, lift, Documents.call_rerank, after, query_event,
    rerank_event, ret, raise.
  cbn [self trace].
  destruct (co_embed _ _ _ _) as [query_emb|]; [|done].
  destruct (self_index (self w)) as [idx|]; [|done].
  destruct (knn_query _ _ _) as [labels|]; tidy; [|done].
  destruct (py_index labels 0) as [doc_ids|]; tidy; [|done].
  destruct (Documents.texts_to_rerank _ _) as [cand|]; tidy; [|done].
  destruct (co_rerank _ _ _ _ _) as [rr|]; tidy; [|done].
  by destruct (Documents.reranked_ids doc_ids rr).
Qed.

(** [retrieve] never changes the object. *)
Lemma retrieve_self (q : string) (w : World') :
  self (fst (retrieve q w)) = self w.
Proof.
  rewrite retrieve_unfold. cbn zeta.
  repeat match goal with
         | |- context [match ?x with _ => _ end] => destruct x
         end; done.
Qed.

(** *** The three loops *)

Lemma doc_at_lookup (docs : list Passage) (id : nat) (p : Passage) :
  Documents.doc_at docs id = Ok p <-> docs !! id = Some p.
Proof.
  unfold Documents.doc_at. rewrite py_index_nat.
  destruct (docs !! id); split; by intros [= ->].
Qed.

Lemma texts_to_rerank_resolved docs doc_ids cand :
  Documents.texts_to_rerank docs doc_ids = Ok cand <->
  exists picked, resolved docs doc_ids picked /\ cand = map text picked.
Proof.
  unfold Documents.texts_to_rerank, resolved. rewrite res_mapM_Forall2.
  split.
  - induction 1 as [|id t doc_ids cand Hid _ (picked & Hp & ->)].
    + exists []. by split; [constructor|].
    + destruct (Documents.doc_at docs id) as [p|] eqn:Hd; [|done].
      injection Hid as <-. exists (p :: picked).
      split; [|done]. constructor; [by apply doc_at_lookup|done].
  - intros (picked & Hp & ->). apply Forall2_fmap_r.
    eapply Forall2_impl; [exact Hp|]. intros id p Hid.
    apply doc_at_lookup in Hid. by rewrite Hid.
Qed.

Lemma retrieved_resolved docs ids ps :
  Documents.retrieved docs ids = Ok ps <-> resolved docs ids ps.
Proof.
  unfold Documents.retrieved, resolved. rewrite res_mapM_Forall2.
  split; intros H; (eapply Forall2_impl; [exact H|]); intros id p; cbn beta.
  - destruct (Documents.doc_at docs id) as [[t x]|] eqn:Hd; simpl; [|done].
    intros [= <-]. by apply doc_at_lookup.
  - intros Hid. apply doc_at_lookup in Hid. rewrite Hid. by destruct p.
Qed.

(** Every rerank item in range picks a candidate, and the passage it
    resolves to is the one at that place among the candidates. *)
Lemma rerank_picks docs doc_ids picked rr :
  resolved docs doc_ids picked ->
  Forall (in_range (length doc_ids)) rr ->
  exists ids ps,
    Documents.reranked_ids doc_ids rr = Ok ids /\
    Documents.retrieved docs ids = Ok ps /\
    Forall2 (fun r p => py_index picked (RerankResult.index r) = Ok p) rr ps.
Proof.
  intros Hres. induction 1 as [|r rr Hr _ (ids & ps & Hids & Hps & Hrel)].
  - exists [], []. by repeat split; [constructor].
  - destruct (py_index_in_range doc_ids (RerankResult.index r) Hr) as [id Hid].
    destruct (py_index_Forall2 _ _ _ _ _ Hres Hid) as (p & Hp & Hdoc).
    exists (id :: ids), (p :: ps).
    unfold Documents.reranked_ids in *. cbn [res_mapM].
    rewrite Hid, Hids. cbn [res_bind]. split; [done|].
    split; [|by constructor].
    apply retrieved_resolved. constructor; [done|].
    by apply retrieved_resolved.
Qed.

Lemma seq_lookup_all {A} (l : list A) :
  Forall2 (fun j x => l !! j = Some x) (seq 0 (length l)) l.
Proof.
  apply Forall2_same_length_lookup_2; [by rewrite length_seq|].
  intros i j x [-> _]%lookup_seq Hx. done.
Qed.

(** When the rerank lists the candidates from the last to the first, the
    passages come out in the reverse of the candidate order. *)
Lemma reversed_picks (picked ps : list Passage) (rr : list RerankResult.t) m :
  map RerankResult.index rr
    = map Z.of_nat (take m (reverse (seq 0 (length picked)))) ->
  Forall2 (fun r p => py_index picked (RerankResult.index r) = Ok p) rr ps ->
  ps = take m (reverse picked).
Proof.
  intros Hidx Hps.
  eapply Forall2_unique; [exact Hps| |intros r p1 p2; cbn beta; congruence].
  assert (Hrj : Forall2 (fun r j => RerankResult.index r = Z.of_nat j) rr
                  (take m (reverse (seq 0 (length picked))))).
  { by apply map_eq_Forall2. }
  eapply Forall2_trans; [|exact Hrj|].
  2: { apply Forall2_take, Forall2_reverse, seq_lookup_all. }
  intros r j p Hr Hj. cbn beta in *. by rewrite Hr, py_index_nat, Hj.
Qed.

(** C1. When the query is embedded, the index answers with the positions
    [doc_ids], which resolve in the store to the passages [picked], and
    the rerank answers with items in range, [retrieve] returns one
    passage per rerank item, in the order of the rerank: the passage of
    the store at the position that the item selects in [doc_ids].  When
    the rerank lists the candidates in reverse input order and keeps [m]
    of them, the result is the first [m] passages of the reversed
    candidate order. *)
Theorem retrieve_rerank_order
    (q : string) (w : World') (query_emb : list Vec) (idx : Index)
    (doc_ids : list nat) (rows : list (list nat)) (picked : list Passage)
    (rr : list RerankResult.t) :
  let d := self w in
  co_embed (trace w) [JStr q] "embed-english-v3.0" "search_query"
    = Ok query_emb ->
  self_index d = Some idx ->
  knn_query idx query_emb (self_retrieve_top_k d) = Ok (doc_ids :: rows) ->
  resolved (self_docs d) doc_ids picked ->
  co_rerank (trace w ++ [query_event q; EvKnnQuery (self_retrieve_top_k d)])
            q (map text picked) (self_rerank_top_k d) "rerank-english-v2.0"
    = Ok rr ->
  Forall (in_range (length doc_ids)) rr ->
  exists w' ps,
    retrieve q w = (w', Ok ps) /\
    length ps = length rr /\
    Forall2 (fun r p => py_index picked (RerankResult.index r) = Ok p) rr ps /\
    (forall i r, rr !! i = Some r ->
       exists id p, py_index doc_ids (RerankResult.index r) = Ok id /\
                    self_docs d !! id = Some p /\ ps !! i = Some p) /\
    (forall m,
       map RerankResult.index rr
         = map Z.of_nat (take m (reverse (seq 0 (length doc_ids)))) ->
       ps = take m (reverse picked)).
Proof.
  intros d Hemb Hidx Hknn Hres Hrr Hrange.
  destruct (rerank_picks _ _ _ _ Hres Hrange) as (ids & ps & Hids & Hps & Hrel).
  eexists _, ps. rewrite retrieve_unfold. cbn zeta. fold d.
  rewrite Hemb, Hidx, Hknn. cbn [res_bind].
  replace (py_index (doc_ids :: rows) 0) with (Ok doc_ids) by done.
  assert (Hcand : Documents.texts_to_rerank (self_docs d) doc_ids
                  = Ok (map text picked)).
  { apply texts_to_rerank_resolved. by exists picked. }
  rewrite Hcand, Hrr. cbn [res_bind]. rewrite Hids. cbn [res_bind].
  rewrite Hps. split; [done|].
  split; [symmetry; by eapply Forall2_length|]. split; [done|]. split.
  - intros i r Hr.
    apply res_mapM_Forall2 in Hids. apply retrieved_resolved in Hps.
    destruct (Forall2_lookup_l _ _ _ _ _ Hids Hr) as (id & Hid & Hsel).
    destruct (Forall2_lookup_l _ _ _ _ _ Hps Hid) as (p & Hp & Hdoc).
    by exists id, p.
  - intros m Hm. eapply reversed_picks; [|done].
    by rewrite <- (Forall2_length _ _ _ Hres).
Qed.

(** *** The search depth *)

Lemma new_events_after (w : World') evs : new_events w (after w evs) = evs.
Proof. unfold new_events, after. cbn [trace]. apply drop_app_length. Qed.

(** The world [retrieve] ends in is the first one up to new events. *)
Lemma retrieve_after (q : string) (w : World') :
  exists evs, fst (retrieve q w) = after w evs /\
    (forall k, EvKnnQuery k ∈ evs -> k = self_retrieve_top_k (self w)) /\
    (forall query_emb idx,
       co_embed (trace w) [JStr q] "embed-english-v3.0" "search_query"
         = Ok query_emb ->
       self_index (self w) = Some idx ->
       EvKnnQuery (self_retrieve_top_k (self w)) ∈ evs).
Proof.
  rewrite retrieve_unfold. cbn zeta. unfold query_event, rerank_event.
  repeat match goal with
         | |- context [match ?x with _ => _ end] => destruct x
         end;
    eexists; (split; [reflexivity|]);
    (split;
     [intros k Hk;
      repeat (apply elem_of_cons in Hk as [Hk|Hk]; [congruence|]);
      by apply elem_of_nil in Hk
     |intros; try done; apply list_elem_of_further, list_elem_of_here]).
Qed.

(** C2 (as amended). [retrieve] hands [retrieve_top_k] to the search as
    it stands: every search it makes has [k = retrieve_top_k], and it
    makes that search whenever the query was embedded and the index is
    there.  So the search depth stays within the stored count exactly when
    [retrieve_top_k] does. *)
Theorem retrieve_searches_with_retrieve_top_k (q : string) (w : World') :
  let w' := fst (retrieve q w) in
  (forall k, EvKnnQuery k ∈ new_events w w' ->
     k = self_retrieve_top_k (self w)) /\
  (forall query_emb idx,
     co_embed (trace w) [JStr q] "embed-english-v3.0" "search_query"
       = Ok query_emb ->
     self_index (self w) = Some idx ->
     EvKnnQuery (self_retrieve_top_k (self w)) ∈ new_events w w' /\
     ((forall k, EvKnnQuery k ∈ new_events w w' -> k <= get_current_count idx)
      <-> self_retrieve_top_k (self w) <= get_current_count idx)).
Proof.
  cbn zeta. destruct (retrieve_after q w) as (evs & -> & Hall & Hsome).
  rewrite new_events_after. split; [done|].
  intros query_emb idx Hemb Hidx.
  specialize (Hsome _ _ Hemb Hidx). split; [done|]. split.
  - intros Hk. by apply Hk.
  - intros Hle k Hk. by rewrite (Hall k Hk).
Qed.

(** *** The result stays among the candidates *)

Lemma NoDup_below (l : list nat) (n : nat) :
  NoDup l -> Forall (fun i => i < n) l -> length l <= n.
Proof.
  intros Hnd Hlt. rewrite <- (length_seq n 0).
  apply submseteq_length, NoDup_submseteq; [done|].
  intros i Hi. apply elem_of_seq.
  rewrite Forall_forall in Hlt. specialize (Hlt i Hi). lia.
Qed.

Lemma NoDup_below_Z (l : list Z) (n : nat) :
  NoDup l -> Forall (fun i => (0 <= i < Z.of_nat n)%Z) l -> length l <= n.
Proof.
  intros Hnd Hlt. rewrite Forall_forall in Hlt.
  rewrite <- (length_map Z.to_nat). apply NoDup_below.
  - apply NoDup_fmap_2_strong; [|done].
    intros x y Hx Hy Hxy. apply Hlt in Hx, Hy. lia.
  - apply Forall_forall. intros i (z & -> & Hz)%list_elem_of_fmap.
    apply Hlt in Hz. lia.
Qed.

Lemma resolved_below docs doc_ids picked :
  resolved docs doc_ids picked -> Forall (fun i => i < length docs) doc_ids.
Proof.
  intros H. eapply Forall2_Forall_l; [exact H|].
  apply Forall_forall. intros id _ p Hp. by eapply lookup_lt_Some.
Qed.

(** C5. When [retrieve] returns passages, the query was embedded and the
    index answered the search of depth [retrieve_top_k] with positions
    [doc_ids] that resolve in the store to passages [picked]; every
    passage returned is one of [picked]; and when the rerank and the
    search keep their contracts, there are at most [rerank_top_k],
    at most [retrieve_top_k] and at most corpus-size many of them. *)
Theorem retrieve_within_candidates
    (q : string) (w w' : World') (ps : list Passage) :
  retrieve q w = (w', Ok ps) ->
  let d := self w in
  exists query_emb idx doc_ids rows picked,
    co_embed (trace w) [JStr q] "embed-english-v3.0" "search_query"
      = Ok query_emb /\
    self_index d = Some idx /\
    knn_query idx query_emb (self_retrieve_top_k d) = Ok (doc_ids :: rows) /\
    resolved (self_docs d) doc_ids picked /\
    (forall p, p ∈ ps -> p ∈ picked) /\
    (rerank_contract -> search_contract idx ->
     length ps <= min (min (self_rerank_top_k d) (self_retrieve_top_k d))
                      (length (self_docs d))).
Proof.
  rewrite retrieve_unfold. cbn zeta. intros Hrun.
  destruct (co_embed _ _ _ _) as [query_emb|] eqn:Hemb; [|done].
  destruct (self_index (self w)) as [idx|] eqn:Hidx; [|done].
  destruct (knn_query _ _ _) as [labels|] eqn:Hknn; cbn [res_bind] in Hrun;
    [|done].
  destruct (py_index labels 0) as [doc_ids|] eqn:Hrow; [|done].
  destruct labels as [|row rows]; [done|]. injection Hrow as ->.
  destruct (Documents.texts_to_rerank _ _) as [cand|] eqn:Hcand; [|done].
  apply texts_to_rerank_resolved in Hcand as (picked & Hres & ->).
  injection Hrun as _ Hrun.
  destruct (co_rerank _ _ _ _ _) as [rr|] eqn:Hrr; cbn [res_bind] in Hrun;
    [|done].
  destruct (Documents.reranked_ids doc_ids rr) as [ids|] eqn:Hids;
    cbn [res_bind] in Hrun; [|done].
  apply retrieved_resolved in Hrun.
  apply res_mapM_Forall2 in Hids.
  exists query_emb, idx, doc_ids, rows, picked.
  repeat (split; [done|]). split.
  - intros p (i & Hp)%list_elem_of_lookup.
    destruct (Forall2_lookup_r _ _ _ _ _ Hrun Hp) as (id & Hid & Hdoc).
    destruct (Forall2_lookup_r _ _ _ _ _ Hids Hid) as (r & Hr & Hsel).
    destruct (py_index_Forall2 _ _ _ _ _ Hres Hsel) as (p' & Hp' & Hdoc').
    replace p with p' by congruence. by eapply py_index_elem_of.
  - intros Hrerank Hsearch.
    destruct (Hrerank _ _ _ _ _ _ Hrr) as (Hn & Hnd & Hin).
    specialize (Hsearch _ _ _ Hknn).
    apply Forall_cons in Hsearch as [[Hk Hids_nd] _].
    assert (Hlen : length ps = length rr).
    { rewrite <- (Forall2_length _ _ _ Hrun). symmetry.
      by eapply Forall2_length. }
    assert (Hcand : length rr <= length doc_ids).
    { rewrite <- (length_map RerankResult.index).
      apply NoDup_below_Z; [done|].
      apply Forall_forall. intros z (r & -> & Hr)%list_elem_of_fmap.
      rewrite Forall_forall in Hin. specialize (Hin r Hr).
      rewrite length_map in Hin.
      by rewrite (Forall2_length _ _ _ Hres). }
    assert (Hcorpus : length doc_ids <= length (self_docs (self w))).
    { apply NoDup_below; [done|]. by eapply resolved_below. }
    lia.
Qed.

(** *** Retrieving twice, and failures of the backend *)

(** With such a backend the outcome depends on the object alone. *)
Lemma retrieve_outcome (q : string) (w1 w2 : World') :
  deterministic_backend -> self w1 = self w2 ->
  snd (retrieve q w1) = snd (retrieve q w2).
Proof.
  intros [Hemb Hrr] Hself. rewrite !retrieve_unfold. cbn zeta.
  rewrite Hself, (Hemb (trace w1) (trace w2)).
  destruct (co_embed _ _ _ _) as [query_emb|]; [|done].
  destruct (self_index (self w2)) as [idx|]; [|done].
  destruct (res_bind (knn_query _ _ _) _) as [doc_ids|]; [|done].
  destruct (Documents.texts_to_rerank _ _) as [cand|]; [|done].
  cbn [snd]. f_equal. apply Hrr.
Qed.

(** C6. With a backend that answers a request the same way whatever came
    before, retrieving the same query a second time gives the result of
    the first time, and the object is the same before and after both
    calls. *)
Theorem retrieve_twice (q : string) (w : World') :
  deterministic_backend ->
  let first := retrieve q w in
  let second := retrieve q (fst first) in
  snd second = snd first /\
  self (fst first) = self w /\ self (fst second) = self w.
Proof.
  intros Hdet. cbn zeta.
  split; [|by rewrite !retrieve_self].
  apply retrieve_outcome; [done|]. apply retrieve_self.
Qed.

(** C7. A failure of the embedding of the query, or of the rerank, is
    the outcome of [retrieve]: the exception of the backend reaches the
    caller as it is and no passages are returned.  The object is left as
    it was, so a later [retrieve] works on the same store and index. *)
Theorem retrieve_backend_failure (q : string) (w : World') (e : Exn) :
  let d := self w in
  let knn := EvKnnQuery (self_retrieve_top_k d) in
  (co_embed (trace w) [JStr q] "embed-english-v3.0" "search_query" = Raise e ->
   retrieve q w = (after w [query_event q], Raise e)) /\
  (forall query_emb idx doc_ids rows picked,
     co_embed (trace w) [JStr q] "embed-english-v3.0" "search_query"
       = Ok query_emb ->
     self_index d = Some idx ->
     knn_query idx query_emb (self_retrieve_top_k d) = Ok (doc_ids :: rows) ->
     resolved (self_docs d) doc_ids picked ->
     co_rerank (trace w ++ [query_event q; knn]) q (map text picked)
               (self_rerank_top_k d) "rerank-english-v2.0" = Raise e ->
     retrieve q w =
     (after w [query_event q; knn;
               rerank_event q (map text picked) (self_rerank_top_k d)],
      Raise e)) /\
  (forall q', self (fst (retrieve q' (fst (retrieve q w)))) = self w).
Proof.
  cbn zeta. split; [|split].
  - intros Hemb. by rewrite retrieve_unfold, Hemb.
  - intros query_emb idx doc_ids rows picked Hemb Hidx Hknn Hres Hrr.
    rewrite retrieve_unfold. cbn zeta. rewrite Hemb, Hidx, Hknn.
    cbn [res_bind].
    replace (py_index (doc_ids :: rows) 0) with (Ok doc_ids) by done.
    assert (Hcand : Documents.texts_to_rerank (self_docs (self w)) doc_ids
                    = Ok (map text picked)).
    { apply texts_to_rerank_resolved. by exists picked. }
    by rewrite Hcand, Hrr.
  - intros q'. by rewrite !retrieve_self.
Qed.
End RetrieveProperties.

(** ** [index] and the constructor *)

Section BuildProperties.
Context {Vec Index : Type}.
Context {co : CohereClient Vec} {hnswlib : Hnswlib Vec Index}.
Variable open_json : string -> Res json.

Abbreviation World' := (World Vec Index).
Abbreviation M' := (@M Vec Index).
Abbreviation Self := (Documents Vec Index).

(** [index] step by step. *)
Lemma index_unfold (w : World') :
  Documents.index w =
  let d := self w in
  let fresh := hnsw_Index "ip" 1024 in
  match self_docs_len d with
  | None =>
      ({| self := Documents.with_index d fresh; trace := trace w |},
       Raise (AttributeError "docs_len"))
  | Some n =>
      let ids := seq 0 (length (self_docs_embs d)) in
      match init_index fresh n 512 64 with
      | Raise e =>
          ({| self := Documents.with_index d fresh;
              trace := trace w ++ [EvInitIndex n 512 64] |}, Raise e)
      | Ok sized =>
          let evs := [EvInitIndex n 512 64;
                      EvAddItems (length (self_docs_embs d)) ids] in
          match add_items sized (self_docs_embs d) ids with
          | Raise e =>
              ({| self := Documents.with_index d sized;
                  trace := trace w ++ evs |}, Raise e)
          | Ok filled =>
              ({| self := Documents.with_index d filled;
                  trace := trace w ++ evs |}, Ok tt)
          end
      end
  end.
Proof.
  unfold Documents.index, bind, get_self, set_self, emit, lift,
    Documents.attr, ret, raise.
  cbn [self trace self_docs_len self_docs_embs Documents.with_index].
  destruct (self_docs_len (self w)) as [n|]; [|done].
  cbn [self trace self_docs_len self_docs_embs Documents.with_index].
  destruct (init_index _ _ _ _) as [sized|]; [|done].
  cbn [self trace self_docs_len self_docs_embs Documents.with_index].
  rewrite <- !app_assoc. cbn [app].
  by destruct (add_items _ _ _).
Qed.

(** *** The constructor does not look at its sources *)

Lemma sim_ret {A} s (a : A) : sim s (ret a : M' A) (ret a).
Proof. by intros w. Qed.

Lemma sim_lift {A} s (r : Res A) : sim s (lift r : M' A) (lift r).
Proof. by intros w. Qed.

Lemma sim_emit s ev : sim s (emit ev : M' unit) (emit ev).
Proof. by intros w. Qed.

Lemma sim_attr {A} s name (o : option A) :
  sim s (Documents.attr name o : M' A) (Documents.attr name o).
Proof. intros w. by destruct o. Qed.

Lemma sim_call_embed s texts model input_type :
  sim s (Documents.call_embed texts model input_type : M' (list Vec))
        (Documents.call_embed texts model input_type).
Proof. by intros w. Qed.

Lemma sim_set_self s (d : Self) :
  sim s (set_self d) (set_self (with_sources d s)).
Proof. by intros w. Qed.

Lemma sim_bind {A B} s (m1 m2 : M' A) (k1 k2 : A -> M' B) :
  sim s m1 m2 -> (forall a, sim s (k1 a) (k2 a)) ->
  sim s (bind m1 k1) (bind m2 k2).
Proof.
  intros Hm Hk w. unfold bind. rewrite Hm.
  destruct (m1 w) as [w1 [a|e]]; cbn [fst snd]; [|done].
  apply Hk.
Qed.

Lemma sim_get_self {B} s (k1 k2 : Self -> M' B) :
  (forall d, sim s (k1 d) (k2 (with_sources d s))) ->
  sim s (bind get_self k1) (bind get_self k2).
Proof. intros Hk w. unfold bind, get_self. apply Hk. Qed.

Lemma sim_for_each {A} s (l : list A) (b1 b2 : A -> M' unit) :
  (forall x, sim s (b1 x) (b2 x)) -> sim s (for_each l b1) (for_each l b2).
Proof.
  intros Hb. induction l as [|x l IH]; cbn [for_each].
  - apply sim_ret.
  - apply sim_bind; [apply Hb|]. by intros _.
Qed.

Ltac sim_step :=
  first [ apply sim_get_self; intros ?
        | apply sim_ret | apply sim_lift | apply sim_emit | apply sim_attr
        | apply sim_call_embed | apply sim_set_self
        | apply sim_for_each; intros ?
        | apply sim_bind; [|intros ?] ].

Lemma sim_load_loop s articles (n : Z) :
  sim s (Documents.load_loop (Vec:=Vec) (Index:=Index) articles n)
        (Documents.load_loop articles n).
Proof.
  revert n. induction articles as [|a articles IH]; intros n;
    cbn [Documents.load_loop]; [apply sim_ret|].
  destruct (n =? 0)%Z; [apply sim_ret|].
  repeat sim_step. apply IH.
Qed.

Lemma sim_load s (n : Z) :
  sim s (Documents.load (Vec:=Vec) (Index:=Index) open_json n)
        (Documents.load open_json n).
Proof. unfold Documents.load. repeat sim_step. apply sim_load_loop. Qed.

Lemma sim_embed s :
  sim s (Documents.embed (Index:=Index)) Documents.embed.
Proof.
  unfold Documents.embed, Documents.embed_batches, Documents.embed_batch.
  repeat sim_step.
Qed.

Lemma sim_index s :
  sim s (Documents.index (Vec:=Vec) (Index:=Index)) Documents.index.
Proof. unfold Documents.index. repeat sim_step. Qed.

Lemma sim_init (s1 s2 : Sources) :
  sim s2 (Documents.init (Index:=Index) open_json s1)
         (Documents.init open_json s2).
Proof.
  unfold Documents.init.
  apply sim_bind; [apply (sim_set_self s2)|intros _].
  apply sim_bind; [apply sim_load|intros _].
  apply sim_bind; [apply sim_embed|intros _].
  apply sim_index.
Qed.

Lemma load_loop_trace articles (n : Z) (w : World') :
  trace (fst (Documents.load_loop articles n w)) = trace w.
Proof.
  revert n w. induction articles as [|a articles IH]; intros n w; [done|].
  rewrite load_loop_cons. destruct (n =? 0)%Z; [done|].
  destruct (Documents.article_passages a); [|done].
  by rewrite IH.
Qed.

(** C10. The constructor does not depend on its [sources] argument: with
    two values of it, the outcome and the calls are the same and the
    objects agree on everything but the attribute [sources], the passages
    in particular.  The only file [load] opens is
    "datasets/xray_articles.json", and no other file matters. *)
Theorem init_ignores_sources (s1 s2 : Sources) (w : World') :
  let first := Documents.init open_json s1 w in
  let second := Documents.init open_json s2 w in
  snd second = snd first /\
  trace (fst second) = trace (fst first) /\
  self (fst second) = with_sources (self (fst first)) s2 /\
  self_docs (self (fst second)) = self_docs (self (fst first)) /\
  Documents.init (only_dataset open_json) s1 w = first /\
  (forall n (w0 : World'),
     trace (fst (Documents.load open_json n w0))
     = trace w0 ++ [EvOpen "datasets/xray_articles.json"]).
Proof.
  cbn zeta.
  assert (Hsim : Documents.init open_json s2 w =
                 (resourced s2 (fst (Documents.init open_json s1 w)),
                  snd (Documents.init open_json s1 w))).
  { rewrite <- (sim_init s1 s2 w). reflexivity. }
  rewrite Hsim. cbn [fst snd resourced self trace with_sources self_docs].
  repeat (split; [reflexivity|]).
  intros n w0. rewrite load_unfold.
  destruct (res_bind _ _) as [articles|]; [|done].
  by rewrite load_loop_trace.
Qed.

(** *** Building from nothing *)

Lemma load_loop_zero articles (w : World') :
  Documents.load_loop articles 0 w = (w, Ok tt).
Proof. by destruct articles. Qed.

Lemma embed_nothing (w : World') :
  self_docs (self w) = [] ->
  Documents.embed w =
  ({| self := Documents.with_docs_len (self w) 0; trace := trace w |}, Ok tt).
Proof.
  intros Hdocs.
  unfold Documents.embed, Documents.embed_batches, bind, get_self, set_self,
    lift.
  by rewrite Hdocs.
Qed.

(** C9. [load] with [max_articles = 0] reads the dataset file and leaves
    the store as it is, without an error.  On an empty store, [embed] then
    calls the backend not once, ends without an error and leaves the list
    of vectors empty.  [index] then sizes a new index for zero elements and
    hands the library an empty list of vectors under an empty list of
    labels, without a guard of its own: the build ends as these two calls
    of the library end, with the exception of the first that raises, and
    without an error only when the library accepts both. *)
Theorem empty_build_outcome (w : World') (articles : list json) :
  res_bind (open_json "datasets/xray_articles.json") py_iter = Ok articles ->
  self_docs (self w) = [] ->
  self_docs_embs (self w) = [] ->
  let counted := Documents.with_docs_len (self w) 0 in
  let fresh := hnsw_Index "ip" 1024 in
  let build :=
    (Documents.load open_json 0 >> Documents.embed >> Documents.index)%py in
  Documents.load open_json 0 w = (opened w, Ok tt) /\
  (Documents.load open_json 0 >> Documents.embed)%py w
  = ({| self := counted; trace := trace (opened w) |}, Ok tt) /\
  self_docs counted = [] /\
  self_docs_embs counted = [] /\
  match init_index fresh 0 512 64 with
  | Raise e =>
      build w
      = ({| self := Documents.with_index counted fresh;
            trace := trace w ++ [EvOpen "datasets/xray_articles.json";
                                 EvInitIndex 0 512 64] |}, Raise e)
  | Ok sized =>
      let calls := [EvOpen "datasets/xray_articles.json";
                    EvInitIndex 0 512 64; EvAddItems 0 []] in
      match add_items sized [] [] with
      | Raise e =>
          build w
          = ({| self := Documents.with_index counted sized;
                trace := trace w ++ calls |}, Raise e)
      | Ok filled =>
          build w
          = ({| self := Documents.with_index counted filled;
                trace := trace w ++ calls |}, Ok tt)
      end
  end.
Proof.
  intros Hfile Hdocs Hembs. cbn zeta.
  assert (Hload : Documents.load open_json 0 w = (opened w, Ok tt)).
  { by rewrite load_unfold, Hfile, load_loop_zero. }
  assert (Hembed : (Documents.load open_json 0 >> Documents.embed)%py w
                   = ({| self := Documents.with_docs_len (self w) 0;
                         trace := trace (opened w) |}, Ok tt)).
  { unfold bind. rewrite Hload. by rewrite embed_nothing. }
  split; [done|]. split; [done|]. split; [done|]. split; [done|].
  assert (Hbuild : (Documents.load open_json 0 >> Documents.embed
                    >> Documents.index)%py w
                   = Documents.index {| self := Documents.with_docs_len (self w) 0;
                                        trace := trace (opened w) |}).
  { unfold bind. rewrite Hload. by rewrite embed_nothing. }
  rewrite Hbuild, index_unfold. cbn zeta.
  cbn [self trace self_docs_len self_docs_embs Documents.with_docs_len opened].
  rewrite Hembs. cbn [length seq].
  destruct (init_index _ _ _ _) as [sized|e].
  - destruct (add_items _ _ _); by rewrite <- app_assoc.
  - by rewrite <- app_assoc.
Qed.
End BuildProperties.

(** ** The mocked backend keeps the contracts *)

Lemma mock_embed_contract (h : list Event) (texts : list json) (bs : nat) :
  length texts <= bs ->
  exists vs,
    co_embed h texts "embed-english-v3.0" "search_document" = Ok vs /\
    Forall2 (fun t v => v = Mock.vec_of t) texts vs.
Proof.
  intros _. exists (map Mock.vec_of texts). split; [done|].
  apply Forall2_fmap_r. by apply Forall_Forall2_diag, Forall_true.
Qed.

Lemma mock_rerank_contract : rerank_contract (co:=Mock.client).
Proof.
  intros h q documents top_n model rr [= <-]. unfold Mock.reversed.
  rewrite length_map. split; [rewrite length_take; lia|].
  assert (Hseq : NoDup (take top_n (reverse (seq 0 (length documents))))).
  { eapply sublist_NoDup; [|apply sublist_take].
    rewrite reverse_Permutation. apply NoDup_seq. }
  split.
  - rewrite map_map. cbn [RerankResult.index].
    apply (NoDup_fmap_2 Z.of_nat). exact Hseq.
  - apply Forall_forall. intros r (i & -> & Hi)%list_elem_of_fmap.
    cbn [RerankResult.index].
    apply elem_of_take in Hi as (j & Hi%list_elem_of_lookup_2 & _).
    apply elem_of_reverse, elem_of_seq in Hi. lia.
Qed.

Lemma mock_search_contract (idx : Mock.index) :
  NoDup (map fst (Mock.items idx)) -> search_contract (hnswlib:=Mock.library) idx.
Proof.
  intros Hnd queries k rows [= <-].
  apply Forall_forall. intros row (_ & -> & _)%list_elem_of_fmap.
  split; [rewrite length_take; lia|].
  eapply sublist_NoDup; [|apply sublist_take].
  by rewrite reverse_Permutation.
Qed.

Lemma mock_deterministic : deterministic_backend (co:=Mock.client).
Proof. by split. Qed.

(** ** Scenarios *)

(** Two documents "A" and "B" with 3 and 2 sections give 5 passages, the
    first three under "A" and the last two under "B". *)
Lemma load_one_passage_per_section_witness :
  exists w',
    Documents.load Mock.open_json 500 Mock.blank = (w', Ok tt) /\
    self_docs (self w') = five_passages /\
    length (self_docs (self w')) = 5.
Proof.
  destruct (load_one_passage_per_section Mock.open_json
              [Mock.article "A" ["a0"; "a1"; "a2"]; Mock.article "B" ["b0"; "b1"]]
              500
              [(JStr "A", [JStr "a0"; JStr "a1"; JStr "a2"]);
               (JStr "B", [JStr "b0"; JStr "b1"])]
              Mock.blank)
    as (w' & Hrun & Hdocs & Hlen & _).
  - reflexivity.
  - repeat constructor.
  - reflexivity.
  - exists w'. split; [exact Hrun|]. split; [exact Hdocs|exact Hlen].
Defined.

(** An entry without a title and without text sections is accepted. *)
Lemma load_accepts_entry_without_title :
  let articles := [JObj [("FullText", JArr [])]] in
  malformed articles /\
  Documents.load (fun _ => Ok (JArr articles)) 500 Mock.blank
  = (opened Mock.blank, Ok tt).
Proof.
  split; [|reflexivity].
  apply Exists_cons_hd. left. by eexists.
Qed.

(** An entry without any field is accepted when it lies past the limit. *)
Lemma load_accepts_entry_past_limit :
  let articles := [Mock.article "A" ["a0"]; JObj []] in
  malformed articles /\
  Documents.load (fun _ => Ok (JArr articles)) 1 Mock.blank
  = (extended (opened Mock.blank) [passage "A" "a0"], Ok tt).
Proof.
  split; [|reflexivity].
  apply Exists_cons_tl, Exists_cons_hd. left. by eexists.
Qed.

Lemma load_missing_field_raises_witness :
  Documents.load
    (fun _ => Ok (JArr [Mock.article "A" ["a0"]; JObj [("Title", JStr "B")]]))
    500 Mock.blank
  = (extended (opened Mock.blank) [passage "A" "a0"], Raise (KeyError "FullText")).
Proof.
  apply (load_missing_field_raises
           (fun _ => Ok (JArr [Mock.article "A" ["a0"]; JObj [("Title", JStr "B")]]))
           [Mock.article "A" ["a0"]] (JObj [("Title", JStr "B")]) [] 500
           [[passage "A" "a0"]] "FullText" Mock.blank).
  - reflexivity.
  - simpl. lia.
  - reflexivity.
  - left. split; [reflexivity|]. by eexists.
Defined.

(** Five passages in batches of two: three calls, of 2, 2 and 1 texts. *)
Lemma embed_one_vector_per_passage_witness :
  let w := fst (Documents.load Mock.open_json 500 Mock.blank) in
  exists w' batches vs,
    Documents.embed_batches 2 w = (w', Ok tt) /\
    concat batches = five_passages /\
    Forall (fun b => 0 < length b <= 2) batches /\
    trace w' = trace w ++ map embed_event batches /\
    self_docs_embs (self w') = vs /\
    Forall2 (fun t v => v = Mock.vec_of t) (map text five_passages) vs.
Proof.
  cbn zeta.
  destruct (embed_one_vector_per_passage
              (fun t v => v = Mock.vec_of t) 2
              (fst (Documents.load Mock.open_json 500 Mock.blank)))
    as (w' & batches & vs & Hrun & _ & Hcat & Hlen & Htrace & _ & Hembs & Hrel).
  - lia.
  - intros h texts. apply mock_embed_contract.
  - exists w', batches, vs. repeat split; assumption.
Defined.

(** With [retrieve_top_k = 3] and [rerank_top_k = 2] over five passages and
    a rerank that reverses its input, the result is the two passages that
    the index ranked third and second, in this order. *)
Lemma retrieve_rerank_order_witness :
  exists w',
    Documents.retrieve "q" scenario
    = (w', Ok (take 2 (reverse [passage "B" "b1"; passage "B" "b0";
                                passage "A" "a2"]))).
Proof.
  destruct (retrieve_rerank_order "q" scenario [1] scenario_index [4; 3; 2] []
              [passage "B" "b1"; passage "B" "b0"; passage "A" "a2"]
              (Mock.reversed 3 2))
    as (w' & ps & Hrun & _ & _ & _ & Hrev).
  - reflexivity.
  - reflexivity.
  - reflexivity.
  - repeat constructor.
  - reflexivity.
  - repeat constructor; simpl; lia.
  - exists w'. rewrite (Hrev 2 eq_refl) in Hrun. exact Hrun.
Defined.

(** The constructor leaves [retrieve_top_k] at 500; over five passages the
    search is asked for 500 neighbours. *)
Lemma retrieve_searches_beyond_count :
  exists idx,
    self_index (self Mock.built) = Some idx /\
    get_current_count idx = 5 /\
    EvKnnQuery 500 ∈ new_events Mock.built
                       (fst (Documents.retrieve "q" Mock.built)) /\
    ~ 500 <= get_current_count idx.
Proof.
  exists scenario_index. split; [reflexivity|]. split; [reflexivity|].
  split; [|simpl; lia].
  apply list_elem_of_further, list_elem_of_here.
Qed.

Lemma retrieve_within_candidates_witness :
  let ps := [passage "A" "a2"; passage "B" "b0"] in
  let picked := [passage "B" "b1"; passage "B" "b0"; passage "A" "a2"] in
  (forall p, p ∈ ps -> p ∈ picked) /\ length ps <= min (min 2 3) 5.
Proof.
  cbn zeta.
  assert (Hrun : Documents.retrieve "q" scenario
                 = (fst (Documents.retrieve "q" scenario),
                    Ok [passage "A" "a2"; passage "B" "b0"])) by reflexivity.
  destruct (retrieve_within_candidates "q" scenario
              (fst (Documents.retrieve "q" scenario))
              [passage "A" "a2"; passage "B" "b0"] Hrun)
    as (query_emb & idx & doc_ids & rows & picked & Hemb & Hidx & Hknn & Hres
        & Hsub & Hlen).
  injection Hidx as <-. injection Hemb as <-. injection Hknn as <- <-.
  assert (Hpicked : picked = [passage "B" "b1"; passage "B" "b0"; passage "A" "a2"]).
  { eapply Forall2_unique; [exact Hres| |].
    - repeat constructor.
    - intros id p1 p2. cbn beta. congruence. }
  rewrite Hpicked in Hsub. split; [exact Hsub|].
  apply Hlen.
  - exact mock_rerank_contract.
  - apply mock_search_contract. simpl. apply (NoDup_seq 0 5).
Defined.

Lemma retrieve_twice_witness :
  snd (Documents.retrieve "q" (fst (Documents.retrieve "q" Mock.built)))
  = snd (Documents.retrieve "q" Mock.built).
Proof.
  destruct (retrieve_twice "q" Mock.built mock_deterministic) as (Hsame & _).
  exact Hsame.
Defined.

(** Building from a dataset of which nothing is taken, with the mocked
    library, which accepts an empty list of vectors. *)
Lemma empty_build_outcome_witness :
  (Documents.load Mock.open_json 0 >> Documents.embed >> Documents.index)%py
    Mock.blank
  = ({| self := Documents.with_index (Documents.with_docs_len (self Mock.blank) 0)
                  {| Mock.capacity := 0; Mock.items := [] |};
        trace := [EvOpen "datasets/xray_articles.json";
                  EvInitIndex 0 512 64; EvAddItems 0 []] |}, Ok tt).
Proof.
  destruct (empty_build_outcome Mock.open_json Mock.blank
              [Mock.article "A" ["a0"; "a1"; "a2"]; Mock.article "B" ["b0"; "b1"]])
    as (_ & _ & _ & _ & Hbuild).
  - reflexivity.
  - reflexivity.
  - reflexivity.
  - exact Hbuild.
Defined.

(** With a library that refuses an empty list of vectors, the build from
    an empty store does not end well: [load] and [embed] do, and [index]
    raises the exception of [add_items]. *)
Lemma empty_build_refused :
  let build :=
    (Documents.load Mock.open_json 0 >> Documents.embed
     >> Documents.index (hnswlib:=Faults.strict))%py in
  Documents.load Mock.open_json 0 Mock.blank = (opened Mock.blank, Ok tt) /\
  self_docs (self (opened Mock.blank)) = [] /\
  snd ((Documents.load Mock.open_json 0 >> Documents.embed)%py Mock.blank)
  = Ok tt /\
  snd (build Mock.blank)
  = Raise (RuntimeError "Wrong dimensionality of the vectors") /\
  ~ (exists w', build Mock.blank = (w', Ok tt)).
Proof.
  cbn zeta. split; [reflexivity|]. split; [reflexivity|].
  split; [reflexivity|]. split; [reflexivity|].
  intros [w' Hrun]. apply (f_equal snd) in Hrun. discriminate Hrun.
Qed.

(** With a rerank that is out of service, [retrieve] ends in the exception
    of the rerank and the object is the one before the call. *)
Lemma retrieve_backend_failure_witness :
  let outcome := Documents.retrieve (co:=Mock.no_rerank) "q" scenario in
  snd outcome = Raise (BackendError "rerank unavailable") /\
  self (fst outcome) = self scenario.
Proof.
  cbn zeta.
  destruct (retrieve_backend_failure (co:=Mock.no_rerank) "q" scenario
              (BackendError "rerank unavailable")) as (_ & Hrerank & _).
  rewrite (Hrerank [1] scenario_index [4; 3; 2] []
             [passage "B" "b1"; passage "B" "b0"; passage "A" "a2"]).
  - split; reflexivity.
  - reflexivity.
  - reflexivity.
  - reflexivity.
  - repeat constructor.
  - reflexivity.
Defined.

(** * Further properties of the code *)

(** ** More on [load] *)

Lemma split_chars_length (s : string) :
  length (snd (split_chars s)) = code_points s.
Proof.
  induction s as [|c s IH]; simpl; [done|].
  destruct (split_chars s) as [k cs]. simpl in IH.
  destruct (is_continuation c); simpl; by rewrite IH.
Qed.

(** The characters of [s] are its bytes, in order. *)
Lemma split_chars_bytes (s : string) :
  (fst (split_chars s) ++ fold_right String.append "" (snd (split_chars s)))%string
  = s.
Proof.
  induction s as [|c s IH]; simpl; [done|].
  destruct (split_chars s) as [k cs]. simpl in IH.
  destruct (is_continuation c); cbn; by rewrite <- IH.
Qed.

Lemma chars_length (s : string) :
  begins_character s -> length (chars s) = code_points s.
Proof.
  intros Hs. unfold chars. rewrite <- split_chars_length.
  destruct s as [|c s]; simpl in *; [done|].
  destruct (split_chars s) as [k cs]. rewrite Hs. simpl.
  by rewrite length_map.
Qed.

Section MoreLoad.
Context {Vec Index : Type}.
Variable open_json : string -> Res json.

Abbreviation World' := (World Vec Index).
Abbreviation load := (@Documents.load Vec Index open_json).

Lemma article_passages_view (arts : list json) (view : list (json * list json)) :
  Forall2 reads_as arts view ->
  res_mapM Documents.article_passages arts
  = Ok (map (fun v => passages_of (fst v) (snd v)) view).
Proof.
  intros Hview. apply res_mapM_Forall2, Forall2_fmap_r.
  eapply Forall2_impl; [exact Hview|].
  intros a v Hav. by apply article_passages_reads_as.
Qed.

(** A negative [max_articles] is no bound: the counter is decremented away
    from zero and every entry of the dataset is loaded. *)
Theorem load_negative_takes_all
    (arts : list json) (view : list (json * list json)) (n : Z) (w : World') :
  res_bind (open_json "datasets/xray_articles.json") py_iter = Ok arts ->
  Forall2 reads_as arts view ->
  (n < 0)%Z ->
  load n w
  = (extended (opened w) (flat_map (fun v => passages_of (fst v) (snd v)) view),
     Ok tt).
Proof.
  intros Hfile Hview Hn. rewrite load_unfold, Hfile.
  rewrite flat_map_concat_map.
  apply load_loop_negative; [done|]. by apply article_passages_view.
Qed.

(** [load] appends to the store: a second [load] stores every passage a
    second time, after the passages of the first. *)
Theorem load_twice_appends
    (arts : list json) (view : list (json * list json)) (n : nat) (w : World') :
  res_bind (open_json "datasets/xray_articles.json") py_iter = Ok arts ->
  Forall2 reads_as (take n arts) view ->
  let ps := flat_map (fun v => passages_of (fst v) (snd v)) view in
  exists w',
    (load (Z.of_nat n) >> load (Z.of_nat n))%py w = (w', Ok tt) /\
    self_docs (self w') = self_docs (self w) ++ ps ++ ps /\
    new_events w w' = [EvOpen "datasets/xray_articles.json";
                       EvOpen "datasets/xray_articles.json"].
Proof.
  intros Hfile Hview ps.
  pose proof (article_passages_view _ _ Hview) as Hall.
  eexists. unfold bind.
  rewrite (load_unfold open_json _ w), Hfile.
  rewrite (load_loop_take _ _ _ _ Hall).
  rewrite load_unfold, Hfile, (load_loop_take _ _ _ _ Hall).
  split; [reflexivity|]. rewrite <- flat_map_concat_map. fold ps.
  split.
  - cbn. by rewrite <- app_assoc.
  - unfold new_events. cbn. rewrite <- app_assoc. apply drop_app_length.
Qed.

(** A [FullText] that is one string, not a list of strings, is taken
    character by character: the entry gives one passage per character
    (code point) of the text, however many bytes its encoding has. *)
Theorem load_string_full_text
    (a t : json) (s : string) (n : nat) (w : World') :
  res_bind (open_json "datasets/xray_articles.json") py_iter = Ok [a] ->
  py_getitem a "Title" = Ok t ->
  py_getitem a "FullText" = Ok (JStr s) ->
  begins_character s ->
  0 < n ->
  exists w',
    load (Z.of_nat n) w = (w', Ok tt) /\
    self_docs (self w') = self_docs (self w) ++ passages_of t (chars s) /\
    length (self_docs (self w')) = length (self_docs (self w)) + code_points s.
Proof.
  intros Hfile Ht Hs Hbegin Hn.
  assert (Hview : Forall2 reads_as (take n [a]) [(t, chars s)]).
  { rewrite take_ge by (simpl; lia). constructor; [|constructor].
    split; [exact Ht|]. cbn. by rewrite Hs. }
  eexists. rewrite load_unfold, Hfile.
  rewrite (load_loop_take _ _ _ _ (article_passages_view _ _ Hview)).
  split; [reflexivity|]. cbn. rewrite app_nil_r. split; [done|].
  rewrite length_app. unfold passages_of. by rewrite length_map, chars_length.
Qed.

(** The dataset is read before [max_articles] is looked at: when the file
    cannot be opened or parsed, or holds a number, a truth value or null,
    [load] raises, also for [max_articles = 0], and the store is as
    before. *)
Theorem load_unreadable_dataset (n : Z) (w : World') (e : Exn) :
  (open_json "datasets/xray_articles.json" = Raise e \/
   (e = TypeError /\
    exists doc, open_json "datasets/xray_articles.json" = Ok doc /\
      match doc with
      | JNull | JBool _ | JNum _ => True
      | _ => False
      end)) ->
  load n w = (opened w, Raise e).
Proof.
  intros [Hfile|(-> & doc & Hfile & Hdoc)]; rewrite load_unfold, Hfile.
  - done.
  - by destruct doc.
Qed.

(** An entry among the first [n] that is not an object, or whose [FullText]
    is a number, a truth value or null, makes [load] raise [TypeError]; the
    passages of the entries before it are in the store. *)
Theorem load_entry_type_error
    (pre : list json) (a : json) (post : list json) (n : nat)
    (pss : list (list Passage)) (w : World') :
  res_bind (open_json "datasets/xray_articles.json") py_iter
    = Ok (pre ++ a :: post) ->
  length pre < n ->
  res_mapM Documents.article_passages pre = Ok pss ->
  match a with
  | JObj _ =>
      exists ft, py_getitem a "FullText" = Ok ft /\
        match ft with
        | JNull | JBool _ | JNum _ => True
        | _ => False
        end
  | _ => True
  end ->
  load (Z.of_nat n) w = (extended (opened w) (concat pss), Raise TypeError).
Proof.
  intros Hfile Hn Hpre Ha. rewrite load_unfold, Hfile.
  apply load_loop_raise; [done|done|].
  unfold Documents.article_passages.
  destruct a as [| | | | |fields]; try done.
  destruct Ha as (ft & -> & Hft). by destruct ft.
Qed.
End MoreLoad.

(** ** More on [embed] *)

Lemma with_docs_embs_same {Vec Index} (d : Documents Vec Index) :
  Documents.with_docs_embs d (self_docs_embs d) = d.
Proof. by destruct d. Qed.

Lemma for_each_cons_ok {Vec Index A} (x : A) (l : list A)
    (body : A -> M (Vec:=Vec) (Index:=Index) unit) w w1 :
  body x w = (w1, Ok tt) -> for_each (x :: l) body w = for_each l body w1.
Proof. intros H. cbn [for_each]. unfold bind. by rewrite H. Qed.

Lemma for_each_cons_raise {Vec Index A} (x : A) (l : list A)
    (body : A -> M (Vec:=Vec) (Index:=Index) unit) w w1 e :
  body x w = (w1, Raise e) -> for_each (x :: l) body w = (w1, Raise e).
Proof. intros H. cbn [for_each]. unfold bind. by rewrite H. Qed.

Section MoreEmbed.
Context {Vec Index : Type} {co : CohereClient Vec}.

Abbreviation World' := (World Vec Index).
Abbreviation embed_batches := (@Documents.embed_batches Vec Index co).

Section AnyBackend.
Variable bs : nat.
Variable docs : list Passage.

Abbreviation slice := (fun j => take bs (drop (j * bs) docs)).
Abbreviation body := (@Documents.embed_batch Vec Index co bs (length docs)).

(** One round of the loop, whatever the backend answers. *)
Lemma embed_batch_unfold (j : nat) (w : World') :
  self_docs (self w) = docs ->
  body (0 + j * bs) w =
  match co_embed (trace w) (map text (slice j))
                 "embed-english-v3.0" "search_document" with
  | Ok vs =>
      ({| self := Documents.with_docs_embs (self w) (self_docs_embs (self w) ++ vs);
          trace := trace w ++ [embed_event (slice j)] |}, Ok tt)
  | Raise e =>
      ({| self := self w; trace := trace w ++ [embed_event (slice j)] |},
       Raise e)
  end.
Proof.
  intros Hdocs.
  unfold Documents.embed_batch, bind, get_self, set_self, Documents.call_embed.
  rewrite Hdocs. change (0 + j * bs) with (j * bs).
  rewrite py_slice_take. cbn [self trace].
  by destruct (co_embed _ _ _ _).
Qed.

(** The loop sends the batches in order and stops at the first call that
    fails: [m] counts the calls made. *)
Lemma embed_loop_any (c a : nat) (w : World') :
  self_docs (self w) = docs ->
  let run := for_each (map (fun j => 0 + j * bs) (seq a c)) body w in
  exists m vs,
    m <= c /\
    trace (fst run) = trace w ++ map (fun j => embed_event (slice j)) (seq a m) /\
    self (fst run)
    = Documents.with_docs_embs (self w) (self_docs_embs (self w) ++ vs) /\
    match snd run with
    | Ok _ => m = c
    | Raise e =>
        0 < m /\
        co_embed (trace w ++ map (fun j => embed_event (slice j)) (seq a (m - 1)))
                 (map text (slice (a + (m - 1))))
                 "embed-english-v3.0" "search_document" = Raise e
    end.
Proof.
  revert a w. induction c as [|c IH]; intros a w Hdocs; cbn zeta.
  - exists 0, []. cbn. rewrite !app_nil_r, with_docs_embs_same. by repeat split.
  - cbn [seq map].
    pose proof (embed_batch_unfold a w Hdocs) as Hstep.
    destruct (co_embed (trace w) _ _ _) as [vs0|e] eqn:Hcall.
    + rewrite (for_each_cons_ok _ _ _ _ _ Hstep).
      match goal with |- context [for_each _ _ ?w1] =>
        destruct (IH (S a) w1) as (m & vs & Hm & Ht & Hs & Hr)
      end; [done|].
      cbn zeta in *. exists (S m), (vs0 ++ vs).
      split; [lia|]. split.
      { rewrite Ht. cbn [trace seq map]. by rewrite <- app_assoc. }
      split.
      { rewrite Hs. cbn. by rewrite <- app_assoc. }
      destruct (snd (for_each _ _ _)) as [[]|e].
      * lia.
      * destruct Hr as [Hpos Hfail]. split; [lia|].
        cbn [trace] in Hfail. rewrite <- app_assoc in Hfail. cbn [app] in Hfail.
        replace (S m - 1) with (S (m - 1)) by lia. cbn [seq map].
        by replace (a + S (m - 1)) with (S a + (m - 1)) by lia.
    + rewrite (for_each_cons_raise _ _ _ _ _ _ Hstep).
      exists 1, []. cbn [fst snd self trace seq map].
      rewrite !app_nil_r, with_docs_embs_same.
      split; [lia|]. split; [done|]. split; [done|].
      split; [lia|]. cbn. rewrite ?app_nil_r.
      by replace (a + 0) with a by lia.
Qed.

(** The loop call by call: [vss] are the answers of the calls that ended
    well, one list of vectors per batch.  Either every batch was answered,
    or the call after them raised and the loop ended with its exception. *)
Lemma embed_loop_calls (c a : nat) (w : World') :
  self_docs (self w) = docs ->
  let run := for_each (map (fun j => 0 + j * bs) (seq a c)) body w in
  let answer := fun i =>
    co_embed (trace w ++ map (fun j => embed_event (slice j)) (seq a i))
             (map text (slice (a + i)))
             "embed-english-v3.0" "search_document" in
  exists vss,
    (forall i vs, vss !! i = Some vs -> answer i = Ok vs) /\
    self (fst run)
    = Documents.with_docs_embs (self w) (self_docs_embs (self w) ++ concat vss) /\
    ((length vss = c /\ snd run = Ok tt /\
      trace (fst run)
      = trace w ++ map (fun j => embed_event (slice j)) (seq a c)) \/
     (length vss < c /\
      exists e, answer (length vss) = Raise e /\ snd run = Raise e /\
        trace (fst run)
        = trace w ++ map (fun j => embed_event (slice j))
                         (seq a (S (length vss))))).
Proof.
  revert a w. induction c as [|c IH]; intros a w Hdocs; cbn zeta.
  - exists []. cbn. rewrite !app_nil_r, with_docs_embs_same.
    split; [done|]. split; [done|]. by left.
  - cbn [seq map].
    pose proof (embed_batch_unfold a w Hdocs) as Hstep.
    destruct (co_embed (trace w) _ _ _) as [vs0|e] eqn:Hcall.
    + rewrite (for_each_cons_ok _ _ _ _ _ Hstep).
      match goal with |- context [for_each _ _ ?w1] =>
        destruct (IH (S a) w1) as (vss & Hans & Hs & Hend)
      end; [done|].
      cbn zeta in *. cbn [trace self] in Hans, Hs, Hend.
      exists (vs0 :: vss). split; [|split].
      * intros [|i] vs Hi.
        -- injection Hi as <-. cbn [seq map]. rewrite app_nil_r, Nat.add_0_r.
           exact Hcall.
        -- specialize (Hans i vs Hi). rewrite <- app_assoc in Hans.
           cbn [seq map]. by replace (a + S i) with (S a + i) by lia.
      * rewrite Hs. cbn. by rewrite <- app_assoc.
      * destruct Hend as [(Hlen & Hok & Ht)|(Hlen & e & Hfail & Hraise & Ht)].
        -- left. cbn [length]. split; [by rewrite Hlen|]. split; [done|].
           rewrite Ht. by rewrite <- app_assoc.
        -- right. cbn [length]. split; [lia|]. exists e.
           rewrite <- app_assoc in Hfail, Ht. cbn [seq map].
           replace (a + S (length vss)) with (S a + length vss) by lia.
           done.
    + rewrite (for_each_cons_raise _ _ _ _ _ _ Hstep).
      exists []. cbn [fst snd self trace concat length seq map].
      rewrite !app_nil_r, with_docs_embs_same, Nat.add_0_r.
      split; [done|]. split; [done|]. right. split; [lia|]. by exists e.
Qed.
End AnyBackend.

(** [embed_batches] in terms of its loop. *)
Lemma embed_batches_unfold (bs : nat) (w : World') :
  0 < bs ->
  embed_batches bs w =
  for_each (map (fun j => 0 + j * bs)
                (seq 0 ((length (self_docs (self w)) + (bs - 1)) / bs)))
           (Documents.embed_batch bs (length (self_docs (self w))))
           {| self := Documents.with_docs_len (self w) (length (self_docs (self w)));
              trace := trace w |}.
Proof.
  intros Hbs.
  unfold Documents.embed_batches, bind, get_self, set_self, lift, py_range.
  destruct (Nat.eqb_spec bs 0); [lia|].
  by rewrite Nat.sub_0_r.
Qed.

(** What [embed] leaves: the calls of the first [m] batches, and an object
    changed in [docs_len] and [docs_embs] only; all batches were sent when
    it ended well. *)
Lemma embed_sends_batches (bs : nat) (w : World') :
  0 < bs ->
  let batches := batches_of bs (self_docs (self w)) in
  let run := embed_batches bs w in
  exists m vs,
    m <= length batches /\
    trace (fst run) = trace w ++ map embed_event (take m batches) /\
    self (fst run)
    = Documents.with_docs_embs
        (Documents.with_docs_len (self w) (length (self_docs (self w))))
        (self_docs_embs (self w) ++ vs) /\
    (forall u, snd run = Ok u -> m = length batches).
Proof.
  intros Hbs. cbn zeta. rewrite embed_batches_unfold by done.
  set (docs := self_docs (self w)).
  set (c := (length docs + (bs - 1)) / bs).
  match goal with |- context [for_each _ _ ?w1] =>
    destruct (embed_loop_any bs docs c 0 w1) as (m & vs & Hm & Ht & Hs & Hr)
  end; [done|].
  cbn zeta in *. cbn [trace self] in Ht, Hs, Hr.
  assert (Hlen : length (batches_of bs docs) = c).
  { unfold batches_of. by rewrite length_map, length_seq. }
  exists m, vs. rewrite Hlen. split; [done|]. split; [|split; [done|]].
  - rewrite Ht. f_equal. unfold batches_of. fold c.
    rewrite <- fmap_take, take_seq, Nat.min_l by lia. symmetry. apply map_map.
  - intros u Hu. by rewrite Hu in Hr.
Qed.

(** Whatever the backend answers, [embed] sends the batches in order, each
    call after the ones before it, and stops at the first call that fails.
    With [vss] the answers of the calls that ended well: they are the
    answers for the first batches, in order, and [docs_embs] is extended by
    their vectors, in order.  When every batch was answered, [embed] ends
    well.  Otherwise the call for the next batch raised: [embed] ends with
    that exception, no later batch is sent, and the vectors of the batches
    before it stay in the object. *)
Theorem embed_stops_at_first_failure (bs : nat) (w : World') :
  0 < bs ->
  let batches := batches_of bs (self_docs (self w)) in
  let answer := fun i b =>
    co_embed (trace w ++ map embed_event (take i batches)) (map text b)
             "embed-english-v3.0" "search_document" in
  let run := embed_batches bs w in
  exists vss : list (list Vec),
    (forall i vs, vss !! i = Some vs ->
       exists b, batches !! i = Some b /\ answer i b = Ok vs) /\
    self (fst run)
    = Documents.with_docs_embs
        (Documents.with_docs_len (self w) (length (self_docs (self w))))
        (self_docs_embs (self w) ++ concat vss) /\
    ((length vss = length batches /\ snd run = Ok tt /\
      new_events w (fst run) = map embed_event batches) \/
     (exists b e,
        batches !! length vss = Some b /\ answer (length vss) b = Raise e /\
        snd run = Raise e /\
        new_events w (fst run)
        = map embed_event (take (S (length vss)) batches))).
Proof.
  intros Hbs. cbn zeta. rewrite embed_batches_unfold by done.
  set (docs := self_docs (self w)).
  set (c := (length docs + (bs - 1)) / bs).
  match goal with |- context [for_each _ _ ?w1] =>
    destruct (embed_loop_calls bs docs c 0 w1) as (vss & Hans & Hs & Hend)
  end; [done|].
  cbn zeta in *. cbn [trace self] in Hans, Hs, Hend.
  assert (Htake : forall k, k <= c ->
            map embed_event (take k (batches_of bs docs))
            = map (fun j => embed_event (take bs (drop (j * bs) docs))) (seq 0 k)).
  { intros k Hk. unfold batches_of. fold c.
    rewrite <- fmap_take, take_seq, Nat.min_l by lia. apply map_map. }
  assert (Hlen : length (batches_of bs docs) = c).
  { unfold batches_of. by rewrite length_map, length_seq. }
  assert (Hat : forall i, i < c ->
            batches_of bs docs !! i = Some (take bs (drop (i * bs) docs))).
  { intros i Hi. unfold batches_of. fold c.
    by rewrite list_lookup_fmap, lookup_seq_lt by lia. }
  assert (Hbound : length vss <= c).
  { destruct Hend as [(H & _)|(H & _)]; lia. }
  exists vss. split; [|split; [done|]].
  - intros i vs Hi.
    assert (Hi' : i < c) by (apply lookup_lt_Some in Hi; lia).
    exists (take bs (drop (i * bs) docs)). split; [by apply Hat|].
    rewrite Htake by lia. by apply Hans.
  - destruct Hend as [(Hall & Hok & Ht)|(Hless & e & Hfail & Hraise & Ht)].
    + left. rewrite Hlen. split; [done|]. split; [done|].
      unfold new_events. rewrite Ht, drop_app_length.
      rewrite <- (Htake c) by lia. by rewrite take_ge by lia.
    + right. exists (take bs (drop (length vss * bs) docs)), e.
      split; [by apply Hat|]. split; [by rewrite Htake by lia|].
      split; [done|].
      unfold new_events. rewrite Ht, drop_app_length. symmetry.
      by apply Htake.
Qed.
End MoreEmbed.

(** ** More on the build *)

Section MoreBuild.
Context {Vec Index : Type}.
Context {co : CohereClient Vec} {hnswlib : Hnswlib Vec Index}.
Variable open_json : string -> Res json.

Abbreviation World' := (World Vec Index).

(** [load] changes nothing of the object but the store, to which it
    appends. *)
Lemma load_loop_appends articles (n : Z) (w : World') :
  exists ps, fst (Documents.load_loop articles n w) = extended w ps.
Proof.
  revert n w. induction articles as [|a articles IH]; intros n w.
  - exists []. by rewrite extended_nil.
  - rewrite load_loop_cons. destruct (n =? 0)%Z.
    + exists []. by rewrite extended_nil.
    + destruct (Documents.article_passages a) as [ps|].
      * destruct (IH (n - 1)%Z (extended w ps)) as [qs Hqs].
        exists (ps ++ qs). by rewrite Hqs, extended_app.
      * exists []. by rewrite extended_nil.
Qed.

Lemma load_appends (n : Z) (w : World') :
  exists ps, fst (Documents.load open_json n w) = extended (opened w) ps.
Proof.
  rewrite load_unfold. destruct (res_bind _ _) as [articles|].
  - apply load_loop_appends.
  - exists []. by rewrite extended_nil.
Qed.

(** The run of [embed] when the backend keeps its contract: all batches
    are sent, and the object gets [docs_len] and one vector per passage. *)
Lemma embed_run (embeds : json -> Vec -> Prop) (bs : nat) (w : World') :
  0 < bs ->
  (forall h texts, length texts <= bs ->
     exists vs,
       co_embed h texts "embed-english-v3.0" "search_document" = Ok vs /\
       Forall2 embeds texts vs) ->
  exists vs,
    Forall2 embeds (map text (self_docs (self w))) vs /\
    Documents.embed_batches bs w =
    ({| self := Documents.with_docs_embs
                  (Documents.with_docs_len (self w) (length (self_docs (self w))))
                  (self_docs_embs (self w) ++ vs);
        trace := trace w ++ map embed_event (batches_of bs (self_docs (self w))) |},
     Ok tt).
Proof.
  intros Hbs Hco. rewrite embed_batches_unfold by done.
  set (docs := self_docs (self w)).
  set (c := (length docs + (bs - 1)) / bs).
  match goal with |- context [for_each _ _ ?w1] =>
    destruct (embed_loop embeds bs Hbs Hco docs c 0 w1)
      as (w' & vs & Hrun & _ & He & Ht & Hrel); [done|];
    destruct (embed_loop_any bs docs c 0 w1) as (m & vs' & _ & _ & Hs & _);
      [done|]
  end.
  cbn zeta in Hs. rewrite Hrun in *. cbn [fst self trace] in *.
  exists vs. split.
  { cbn in Hrel. rewrite take_ge in Hrel; [done|].
    subst c. by apply ceil_div_covers. }
  f_equal. destruct w' as [d' t']. cbn [self trace] in *. f_equal.
  - rewrite Hs. f_equal. rewrite Hs in He. cbn in He. exact He.
  - rewrite Ht. unfold batches_of. fold c. by rewrite map_map.
Qed.

(** After [embed] with a backend that keeps its contract, [index] sizes
    the index for exactly the number of passages and hands the library the
    vectors in the order of the store under the labels [0 .. count-1]: the
    vector at position [i] embeds the text of passage [i] and its label is
    [i].  The build ends as the two calls of the library end. *)
Theorem build_labels_are_positions
    (embeds : json -> Vec -> Prop) (w : World') :
  (forall h texts, length texts <= 90 ->
     exists vs,
       co_embed h texts "embed-english-v3.0" "search_document" = Ok vs /\
       Forall2 embeds texts vs) ->
  self_docs_embs (self w) = [] ->
  let docs := self_docs (self w) in
  let labels := seq 0 (length docs) in
  let fresh := hnsw_Index "ip" 1024 in
  exists vs,
    (forall i p, docs !! i = Some p ->
       exists v, vs !! i = Some v /\ embeds (text p) v /\ labels !! i = Some i) /\
    length vs = length docs /\
    let d := Documents.with_docs_embs
               (Documents.with_docs_len (self w) (length docs)) vs in
    let sent := map embed_event (batches_of 90 docs) in
    (Documents.embed >> Documents.index)%py w =
    match init_index fresh (length docs) 512 64 with
    | Raise e =>
        ({| self := Documents.with_index d fresh;
            trace := trace w ++ sent ++ [EvInitIndex (length docs) 512 64] |},
         Raise e)
    | Ok sized =>
        let calls := [EvInitIndex (length docs) 512 64;
                      EvAddItems (length docs) labels] in
        match add_items sized vs labels with
        | Raise e =>
            ({| self := Documents.with_index d sized;
                trace := trace w ++ sent ++ calls |}, Raise e)
        | Ok filled =>
            ({| self := Documents.with_index d filled;
                trace := trace w ++ sent ++ calls |}, Ok tt)
        end
    end.
Proof.
  intros Hco Hembs docs labels fresh.
  destruct (embed_run embeds 90 w) as (vs & Hrel & Hrun); [lia|done|].
  assert (Hlen : length vs = length docs).
  { rewrite <- (Forall2_length _ _ _ Hrel). apply length_map. }
  exists vs. split; [|split; [done|]].
  - intros i p Hp. unfold labels. unfold docs in Hp.
    destruct (Forall2_lookup_l _ _ _ i (text p) Hrel) as (v & Hv & Hev).
    { by rewrite list_lookup_fmap, Hp. }
    exists v. split; [done|]. split; [done|].
    apply lookup_seq_lt. by apply lookup_lt_Some in Hp.
  - cbn zeta. unfold bind at 1.
    change (Documents.embed w) with (Documents.embed_batches 90 w).
    rewrite Hrun, index_unfold. cbn zeta.
    cbn [self trace self_docs_len self_docs_embs Documents.with_docs_len
         Documents.with_docs_embs].
    rewrite Hembs. cbn [app]. fold docs. rewrite Hlen. fold labels. fold fresh.
    destruct (init_index _ _ _ _) as [sized|e].
    + destruct (add_items _ _ _); by rewrite <- app_assoc.
    + by rewrite <- app_assoc.
Qed.

(** In the constructor the index is built last, and only when [load] and
    [embed] ended well.  An exception of [load] or of [embed] is the outcome
    of the constructor; the object then has no index and the index library
    was not called: the calls are the opening of the dataset and, for
    [embed], those of its first batches.  When both end well, every batch
    was sent and the constructor ends as [index] does on the object they
    leave, which has no index yet. *)
Theorem init_index_only_after_embed (s : Sources) (w : World') :
  let w0 : World' :=
    {| self := {| self_sources := s; self_docs := []; self_docs_embs := [];
                  self_retrieve_top_k := 500; self_rerank_top_k := 100;
                  self_docs_len := None; self_index := None |};
       trace := trace w |} in
  let run := Documents.init open_json s w in
  match Documents.load open_json 500 w0 with
  | (w1, Raise e) =>
      run = (w1, Raise e) /\ self_index (self w1) = None /\
      new_events w w1 = [EvOpen "datasets/xray_articles.json"]
  | (w1, Ok _) =>
      let batches := batches_of 90 (self_docs (self w1)) in
      match Documents.embed w1 with
      | (w2, Raise e) =>
          run = (w2, Raise e) /\ self_index (self w2) = None /\
          exists m,
            m <= length batches /\
            new_events w w2
            = EvOpen "datasets/xray_articles.json"
              :: map embed_event (take m batches)
      | (w2, Ok _) =>
          run = Documents.index w2 /\ self_index (self w2) = None /\
          new_events w w2
          = EvOpen "datasets/xray_articles.json" :: map embed_event batches
      end
  end.
Proof.
  cbn zeta.
  match goal with |- context [Documents.load open_json 500 ?x] =>
    set (w0 := x)
  end.
  assert (Hinit : Documents.init open_json s w =
            match Documents.load open_json 500 w0 with
            | (w1, Ok _) =>
                match Documents.embed w1 with
                | (w2, Ok _) => Documents.index w2
                | (w2, Raise e) => (w2, Raise e)
                end
            | (w1, Raise e) => (w1, Raise e)
            end) by reflexivity.
  rewrite Hinit. clear Hinit.
  destruct (load_appends 500 w0) as [ps Hps].
  destruct (Documents.load open_json 500 w0) as [w1 [[]|e]] eqn:Hload;
    cbn [fst] in Hps.
  2: { split; [done|]. rewrite Hps. split; [done|].
       unfold new_events. cbn [trace extended opened]. apply drop_app_length. }
  assert (Htrace : trace w1 = trace w ++ [EvOpen "datasets/xray_articles.json"]).
  { by rewrite Hps. }
  destruct (embed_sends_batches 90 w1) as (m & vs & Hm & Ht & Hs & Hr); [lia|].
  cbn zeta in *.
  change (Documents.embed_batches 90 w1) with (Documents.embed w1) in *.
  destruct (Documents.embed w1) as [w2 [[]|e]] eqn:Hembed; cbn [fst snd] in *.
  - split; [done|]. split; [by rewrite Hs, Hps|].
    unfold new_events. rewrite Ht, Htrace, <- app_assoc, drop_app_length.
    cbn [app]. by rewrite (Hr tt eq_refl), take_ge.
  - split; [done|]. split; [by rewrite Hs, Hps|]. exists m. split; [done|].
    unfold new_events. by rewrite Ht, Htrace, <- app_assoc, drop_app_length.
Qed.
End MoreBuild.

(** ** More on [retrieve] *)

(** A loop that collects results raises [E] when some item raises and [E]
    is all that an item can raise. *)
Lemma res_mapM_raises {A B} (f : A -> Res B) (l : list A) (E : Exn) :
  (forall x e, f x = Raise e -> e = E) ->
  Exists (fun x => exists e, f x = Raise e) l ->
  res_mapM f l = Raise E.
Proof.
  intros Honly. induction 1 as [x l [e Hx]|x l _ IH]; cbn [res_mapM].
  - rewrite Hx. cbn. by rewrite (Honly _ _ Hx).
  - destruct (f x) as [y|e] eqn:Hx; cbn.
    + by rewrite IH.
    + by rewrite (Honly _ _ Hx).
Qed.

Lemma py_index_raises {A} (l : list A) (i : Z) (e : Exn) :
  py_index l i = Raise e -> e = IndexError.
Proof.
  unfold py_index. destruct (_ <? 0)%Z; [by intros [= <-]|].
  destruct (l !! _); [done|by intros [= <-]].
Qed.

Lemma py_index_out_of_range {A} (l : list A) (i : Z) :
  ~ (- Z.of_nat (length l) <= i < Z.of_nat (length l))%Z ->
  py_index l i = Raise IndexError.
Proof.
  intros Hout. destruct (py_index l i) as [x|e] eqn:Hi.
  - exfalso. apply Hout. apply py_index_Ok in Hi as [Hpos Hx].
    apply lookup_lt_Some in Hx. unfold py_position in *.
    destruct (Z.ltb_spec i 0); lia.
  - by rewrite (py_index_raises _ _ _ Hi).
Qed.

Section MoreRetrieve.
Context {Vec Index : Type}.
Context {co : CohereClient Vec} {hnswlib : Hnswlib Vec Index}.

Abbreviation World' := (World Vec Index).
Abbreviation retrieve := (@Documents.retrieve Vec Index co hnswlib).

(** Whatever the backend and the index answer, [retrieve] makes at most
    three calls, in this order: the embedding of the query, one search of
    depth [retrieve_top_k], and one rerank for [rerank_top_k] items.  It
    returns passages only after all three; with fewer calls the outcome is
    an exception. *)
Theorem retrieve_calls (q : string) (w : World') :
  let run := retrieve q w in
  let knn := EvKnnQuery (self_retrieve_top_k (self w)) in
  exists evs,
    fst run = after w evs /\
    ((evs = [query_event q] /\ exists e, snd run = Raise e) \/
     (evs = [query_event q; knn] /\ exists e, snd run = Raise e) \/
     (exists cand,
        evs = [query_event q; knn;
               rerank_event q cand (self_rerank_top_k (self w))])).
Proof.
  cbn zeta. rewrite retrieve_unfold. cbn zeta.
  destruct (co_embed _ _ _ _) as [query_emb|e]; [|by eauto 6].
  destruct (self_index (self w)) as [idx|]; [|by eauto 6].
  destruct (res_bind (knn_query _ _ _) _) as [doc_ids|e]; [|by eauto 7].
  destruct (Documents.texts_to_rerank _ _) as [cand|e]; [|by eauto 7].
  eexists. split; [reflexivity|]. right. right. by exists cand.
Qed.

(** When the search raises, gives no row, or gives a label that is not a
    position of the store, [retrieve] raises (the exception of the search,
    or [IndexError]) and the rerank is not called. *)
Theorem retrieve_search_failure
    (q : string) (w : World') (query_emb : list Vec) (idx : Index) (e : Exn) :
  let d := self w in
  co_embed (trace w) [JStr q] "embed-english-v3.0" "search_query"
    = Ok query_emb ->
  self_index d = Some idx ->
  (knn_query idx query_emb (self_retrieve_top_k d) = Raise e \/
   (e = IndexError /\ knn_query idx query_emb (self_retrieve_top_k d) = Ok []) \/
   (e = IndexError /\
    exists doc_ids rows,
      knn_query idx query_emb (self_retrieve_top_k d) = Ok (doc_ids :: rows) /\
      Exists (fun id => length (self_docs d) <= id) doc_ids)) ->
  retrieve q w
  = (after w [query_event q; EvKnnQuery (self_retrieve_top_k d)], Raise e).
Proof.
  cbn zeta. intros Hemb Hidx Hsearch.
  rewrite retrieve_unfold. cbn zeta. rewrite Hemb, Hidx.
  destruct Hsearch as [Hknn|[[-> Hknn]|(-> & doc_ids & rows & Hknn & Hbad)]];
    rewrite Hknn; cbn [res_bind]; [done|done|].
  replace (py_index (doc_ids :: rows) 0) with (Ok doc_ids) by done.
  unfold Documents.texts_to_rerank.
  rewrite (res_mapM_raises _ _ IndexError); [done| |].
  - intros id e. unfold Documents.doc_at.
    destruct (py_index _ _) eqn:Hi; [done|].
    intros [= <-]. by eapply py_index_raises.
  - eapply Exists_impl; [exact Hbad|]. intros id Hid. cbn beta in *.
    exists IndexError. unfold Documents.doc_at.
    rewrite py_index_nat, (lookup_ge_None_2 _ _ Hid). done.
Qed.

(** When the rerank gives an item whose index lies outside the candidates
    (beyond the last, or before the first when counted from the end),
    [retrieve] raises [IndexError] and returns none of the passages. *)
Theorem retrieve_rerank_index_out_of_range
    (q : string) (w : World') (query_emb : list Vec) (idx : Index)
    (doc_ids : list nat) (rows : list (list nat)) (picked : list Passage)
    (rr : list RerankResult.t) :
  let d := self w in
  let knn := EvKnnQuery (self_retrieve_top_k d) in
  co_embed (trace w) [JStr q] "embed-english-v3.0" "search_query"
    = Ok query_emb ->
  self_index d = Some idx ->
  knn_query idx query_emb (self_retrieve_top_k d) = Ok (doc_ids :: rows) ->
  resolved (self_docs d) doc_ids picked ->
  co_rerank (trace w ++ [query_event q; knn]) q (map text picked)
            (self_rerank_top_k d) "rerank-english-v2.0" = Ok rr ->
  Exists (fun r => ~ in_range (length doc_ids) r) rr ->
  retrieve q w
  = (after w [query_event q; knn;
              rerank_event q (map text picked) (self_rerank_top_k d)],
     Raise IndexError).
Proof.
  cbn zeta. intros Hemb Hidx Hknn Hres Hrr Hbad.
  rewrite retrieve_unfold. cbn zeta. rewrite Hemb, Hidx, Hknn.
  cbn [res_bind].
  replace (py_index (doc_ids :: rows) 0) with (Ok doc_ids) by done.
  assert (Hcand : Documents.texts_to_rerank (self_docs (self w)) doc_ids
                  = Ok (map text picked)).
  { apply texts_to_rerank_resolved. by exists picked. }
  rewrite Hcand, Hrr. cbn [res_bind]. unfold Documents.reranked_ids.
  rewrite (res_mapM_raises _ _ IndexError); [done| |].
  - intros r e. apply py_index_raises.
  - eapply Exists_impl; [exact Hbad|]. intros r Hr. cbn beta in *.
    exists IndexError. by apply py_index_out_of_range.
Qed.
End MoreRetrieve.

(** ** The chatbot *)

Section ChatbotProperties.
Context {Vec Index Response : Type}.
Context {co : CohereClient Vec} {hnswlib : Hnswlib Vec Index}.
Context {chat : CohereChat Response}.

Abbreviation ChatWorld' := (ChatWorld Vec Index).

Lemma with_docs_world_same (cw : ChatWorld') :
  with_docs_world cw (docs_world cw) = cw.
Proof. by destruct cw. Qed.

Lemma retrieve_each_cons (query : string) rest acc (cw : ChatWorld') :
  Chatbot.retrieve_each (query :: rest) acc cw =
  match Documents.retrieve query (docs_world cw) with
  | (w', Ok passages) =>
      Chatbot.retrieve_each rest (acc ++ passages) (with_docs_world cw w')
  | (w', Raise e) => (with_docs_world cw w', Raise e)
  end.
Proof.
  cbn [Chatbot.retrieve_each]. unfold cbind, in_docs.
  by destruct (Documents.retrieve query (docs_world cw)) as [w' [ps|e]].
Qed.

(** The loop over the queries touches the chatbot through the calls of
    [retrieve] only. *)
Lemma retrieve_each_effects (queries : list string) acc (cw : ChatWorld') :
  exists w',
    fst (Chatbot.retrieve_each queries acc cw) = with_docs_world cw w' /\
    self w' = self (docs_world cw).
Proof.
  revert acc cw. induction queries as [|q queries IH]; intros acc cw.
  - exists (docs_world cw). by rewrite with_docs_world_same.
  - rewrite retrieve_each_cons.
    pose proof (retrieve_self q (docs_world cw)) as Hself.
    destruct (Documents.retrieve q (docs_world cw)) as [w1 [ps|e]];
      cbn [fst] in Hself.
    + destruct (IH (acc ++ ps) (with_docs_world cw w1)) as (w' & Hrun & Hs).
      exists w'. rewrite Hrun. split; [done|]. by rewrite Hs.
    + by exists w1.
Qed.

Lemma retrieve_each_concat (queries : list string) (pss : list (list Passage))
    acc (cw : ChatWorld') (w0 : World Vec Index) :
  deterministic_backend ->
  self (docs_world cw) = self w0 ->
  Forall2 (fun q ps => snd (Documents.retrieve q w0) = Ok ps) queries pss ->
  snd (Chatbot.retrieve_each queries acc cw) = Ok (acc ++ concat pss).
Proof.
  intros Hdet Hself Hall. revert acc cw Hself.
  induction Hall as [|q ps queries pss Hq _ IH]; intros acc cw Hself.
  - cbn. by rewrite app_nil_r.
  - rewrite retrieve_each_cons.
    pose proof (retrieve_outcome q (docs_world cw) w0 Hdet Hself) as Hsame.
    pose proof (retrieve_self q (docs_world cw)) as Hkeep.
    destruct (Documents.retrieve q (docs_world cw)) as [w1 r].
    cbn [fst snd] in *. rewrite Hsame, Hq.
    rewrite IH; [|by rewrite <- Hself]. cbn. by rewrite app_assoc.
Qed.

(** [retrieve_docs] in terms of its two loops. *)
Lemma retrieve_docs_unfold (response : Response) (cw : ChatWorld') :
  Chatbot.retrieve_docs response cw =
  match search_queries response with
  | None => (cw, Raise TypeError)
  | Some found =>
      match res_mapM (fun sq => dict_getitem sq "text") found with
      | Ok queries => Chatbot.retrieve_each queries [] cw
      | Raise e => (cw, Raise e)
      end
  end.
Proof.
  unfold Chatbot.retrieve_docs, cbind, clift.
  destruct (search_queries response) as [found|]; [|done].
  by destruct (res_mapM _ found).
Qed.

(** [retrieve_docs] on a chatbot whose [Documents] object is that of the
    world [w0]. *)
Lemma retrieve_docs_from
    (response : Response) (cw : ChatWorld') (w0 : World Vec Index)
    (found : list (list (string * string))) (queries : list string)
    (pss : list (list Passage)) :
  deterministic_backend ->
  self (docs_world cw) = self w0 ->
  search_queries response = Some found ->
  res_mapM (fun sq => dict_getitem sq "text") found = Ok queries ->
  Forall2 (fun q ps => snd (Documents.retrieve q w0) = Ok ps) queries pss ->
  exists w',
    Chatbot.retrieve_docs response cw = (with_docs_world cw w', Ok (concat pss)) /\
    self w' = self w0.
Proof.
  intros Hdet Hself Hfound Htexts Hall.
  rewrite retrieve_docs_unfold, Hfound, Htexts.
  destruct (retrieve_each_effects queries [] cw) as (w' & Hrun & Hkeep).
  pose proof (retrieve_each_concat queries pss [] cw w0 Hdet Hself Hall) as Hres.
  exists w'. split; [|by rewrite Hkeep].
  destruct (Chatbot.retrieve_each queries [] cw) as [cw' r].
  cbn [fst snd] in *. by rewrite Hrun, Hres.
Qed.

(** With a backend that answers a request the same way whatever came
    before, [retrieve_docs] returns the passages that [retrieve] gives for
    each search query, one query after the other in the order of the
    queries; passages found for two queries are there twice. *)
Theorem retrieve_docs_concatenates
    (response : Response) (cw : ChatWorld')
    (found : list (list (string * string))) (queries : list string)
    (pss : list (list Passage)) :
  deterministic_backend ->
  search_queries response = Some found ->
  Forall2 (fun sq q => dict_getitem sq "text" = Ok q) found queries ->
  Forall2 (fun q ps => snd (Documents.retrieve q (docs_world cw)) = Ok ps)
          queries pss ->
  exists w',
    Chatbot.retrieve_docs response cw = (with_docs_world cw w', Ok (concat pss)) /\
    self w' = self (docs_world cw).
Proof.
  intros Hdet Hfound Htexts Hall.
  rewrite retrieve_docs_unfold, Hfound.
  apply res_mapM_Forall2 in Htexts. rewrite Htexts.
  destruct (retrieve_each_effects queries [] cw) as (w' & Hrun & Hself).
  pose proof (retrieve_each_concat queries pss [] cw (docs_world cw)
                Hdet eq_refl Hall) as Hres.
  exists w'. split; [|done].
  destruct (Chatbot.retrieve_each queries [] cw) as [cw' r].
  cbn [fst snd] in *. by rewrite Hrun, Hres.
Qed.

(** The texts of all search queries are read before the first retrieval:
    when one search query has no "text", [retrieve_docs] raises
    [KeyError] and nothing was retrieved, also not for the queries before
    it.  Without a list of search queries it raises [TypeError]. *)
Theorem retrieve_docs_without_text
    (response : Response) (cw : ChatWorld') (e : Exn) :
  (e = TypeError /\ search_queries response = None) \/
  (e = KeyError "text" /\
   exists found, search_queries response = Some found /\
     Exists (fun sq => dict_lookup "text" sq = None) found) ->
  Chatbot.retrieve_docs response cw = (cw, Raise e).
Proof.
  intros [[-> Hnone]|(-> & found & Hfound & Hbad)];
    rewrite retrieve_docs_unfold.
  - by rewrite Hnone.
  - rewrite Hfound. rewrite (res_mapM_raises _ _ (KeyError "text")); [done| |].
    + intros sq e. unfold dict_getitem.
      destruct (dict_lookup "text" sq); [done|by intros [= <-]].
    + eapply Exists_impl; [exact Hbad|]. intros sq Hsq. cbn beta in *.
      exists (KeyError "text"). unfold dict_getitem. by rewrite Hsq.
Qed.

Lemma retrieve_docs_effects (response : Response) (cw : ChatWorld') :
  exists w',
    fst (Chatbot.retrieve_docs response cw) = with_docs_world cw w' /\
    self w' = self (docs_world cw).
Proof.
  rewrite retrieve_docs_unfold.
  destruct (search_queries response) as [found|].
  - destruct (res_mapM _ found) as [queries|e].
    + apply retrieve_each_effects.
    + exists (docs_world cw). by rewrite with_docs_world_same.
  - exists (docs_world cw). by rewrite with_docs_world_same.
Qed.

(** [generate_response] step by step. *)
Lemma generate_response_unfold (message : string)
    (chat_history : option (list (list (string * string))))
    (max_tokens : nat) (cw : ChatWorld') :
  Chatbot.generate_response message chat_history max_tokens cw =
  let cw1 := chatted cw [search_request message] in
  let cid := conversation_id cw in
  match co_chat (trace (docs_world cw)) (chats cw) (search_request message) with
  | Raise e => (cw1, Raise e)
  | Ok response =>
      if truthy (search_queries response) then
        match Chatbot.retrieve_docs response cw1 with
        | (cw2, Raise e) => (cw2, Raise e)
        | (cw2, Ok documents) =>
            let answer :=
              answer_request message (Some documents) cid chat_history
                             max_tokens in
            (chatted cw2 [answer],
             co_chat (trace (docs_world cw2)) (chats cw2) answer)
        end
      else
        let answer :=
          answer_request message None cid chat_history max_tokens in
        (chatted cw [search_request message; answer],
         co_chat (trace (docs_world cw)) (chats cw ++ [search_request message])
                 answer)
  end.
Proof.
  unfold Chatbot.generate_response, cbind at 1, Chatbot.call_chat at 1.
  fold (search_request message). cbn zeta.
  destruct (co_chat _ _ (search_request message)) as [response|e]; [|done].
  destruct (truthy (search_queries response)).
  - unfold cbind at 1.
    destruct (retrieve_docs_effects response
                (chatted cw [search_request message])) as (w' & Hrun & _).
    destruct (Chatbot.retrieve_docs response _) as [cw2 [documents|e]];
      [|done].
    cbn [fst] in Hrun. subst cw2.
    unfold cbind, get_conversation_id.
    by destruct chat_history.
  - unfold cbind, get_conversation_id, chatted, answer_request,
      Chatbot.call_chat.
    destruct chat_history; cbn; by rewrite <- app_assoc.
Qed.

(** Whatever the backends answer, [generate_response] makes one chat
    request for search queries, outside the conversation, and at most one
    more, which is in the conversation of the chatbot, streams, and
    carries the message, the chat history and [max_tokens] as given.  It
    returns a response only after the second request.  The conversation id
    and the [Documents] object are as before. *)
Theorem generate_response_requests (message : string)
    (chat_history : option (list (list (string * string))))
    (max_tokens : nat) (cw : ChatWorld') :
  let run := Chatbot.generate_response message chat_history max_tokens cw in
  conversation_id (fst run) = conversation_id cw /\
  self (docs_world (fst run)) = self (docs_world cw) /\
  ((chats (fst run) = chats cw ++ [search_request message] /\
    exists e, snd run = Raise e) \/
   (exists documents,
      chats (fst run)
      = chats cw ++ [search_request message;
                     answer_request message documents (conversation_id cw)
                                    chat_history max_tokens])).
Proof.
  cbn zeta. rewrite generate_response_unfold. cbn zeta.
  destruct (co_chat _ _ (search_request message)) as [response|e];
    [|by eauto 6].
  destruct (truthy (search_queries response)).
  - destruct (retrieve_docs_effects response
                (chatted cw [search_request message])) as (w' & Hrun & Hself).
    destruct (Chatbot.retrieve_docs response _) as [cw2 [documents|e]];
      cbn [fst] in Hrun; subst cw2; cbn in *.
    + split; [done|]. split; [done|]. right. exists (Some documents).
      by rewrite <- app_assoc.
    + split; [done|]. split; [done|]. left. by eauto.
  - cbn. split; [done|]. split; [done|]. right. by exists None.
Qed.

(** When the chat finds no search query in the message (none at all, or an
    empty list), [generate_response] answers without documents and
    retrieves nothing: the [Documents] object is not called. *)
Theorem generate_response_direct (message : string)
    (chat_history : option (list (list (string * string))))
    (max_tokens : nat) (cw : ChatWorld') (response : Response) :
  co_chat (trace (docs_world cw)) (chats cw) (search_request message)
    = Ok response ->
  (search_queries response = None \/ search_queries response = Some []) ->
  let answer :=
    answer_request message None (conversation_id cw) chat_history max_tokens in
  Chatbot.generate_response message chat_history max_tokens cw
  = (chatted cw [search_request message; answer],
     co_chat (trace (docs_world cw)) (chats cw ++ [search_request message])
             answer).
Proof.
  intros Hfirst Hnone. cbn zeta.
  rewrite generate_response_unfold. cbn zeta. rewrite Hfirst.
  by destruct Hnone as [-> | ->].
Qed.

(** When the chat finds search queries and the backend of the retrieval
    answers a request the same way whatever came before, the documents
    that the second chat request carries are the passages retrieved for
    the queries, query after query, and the response of that request is
    the outcome. *)
Theorem generate_response_grounded (message : string)
    (chat_history : option (list (list (string * string))))
    (max_tokens : nat) (cw : ChatWorld') (response : Response)
    (sq : list (string * string)) (found : list (list (string * string)))
    (queries : list string) (pss : list (list Passage)) :
  deterministic_backend ->
  co_chat (trace (docs_world cw)) (chats cw) (search_request message)
    = Ok response ->
  search_queries response = Some (sq :: found) ->
  Forall2 (fun sq q => dict_getitem sq "text" = Ok q) (sq :: found) queries ->
  Forall2 (fun q ps => snd (Documents.retrieve q (docs_world cw)) = Ok ps)
          queries pss ->
  let answer :=
    answer_request message (Some (concat pss)) (conversation_id cw)
                   chat_history max_tokens in
  exists w',
    self w' = self (docs_world cw) /\
    Chatbot.generate_response message chat_history max_tokens cw
    = (chatted (with_docs_world cw w') [search_request message; answer],
       co_chat (trace w') (chats cw ++ [search_request message]) answer).
Proof.
  intros Hdet Hfirst Hfound Htexts Hall. cbn zeta.
  rewrite generate_response_unfold. cbn zeta. rewrite Hfirst, Hfound.
  cbn [truthy].
  apply res_mapM_Forall2 in Htexts.
  destruct (retrieve_docs_from response
              (chatted cw [search_request message]) (docs_world cw)
              (sq :: found) queries pss Hdet eq_refl Hfound Htexts Hall)
    as (w' & Hrun & Hself).
  rewrite Hrun. exists w'. split; [done|].
  unfold chatted, with_docs_world. cbn. by rewrite <- app_assoc.
Qed.
End ChatbotProperties.

(** ** The command loop *)

Section LoopProperties.
Context {Vec Index Response : Type}.
Context {co : CohereClient Vec} {hnswlib : Hnswlib Vec Index}.
Context {chat : CohereChat Response}.

Abbreviation ChatWorld' := (ChatWorld Vec Index).

(** What a turn leaves of the chatbot: the requests made so far and then
    new ones, which carry the chat history of the turn or none. *)
Lemma generate_response_effects (message : string)
    (chat_history : option (list (list (string * string))))
    (max_tokens : nat) (cw : ChatWorld') :
  let run := Chatbot.generate_response message chat_history max_tokens cw in
  conversation_id (fst run) = conversation_id cw /\
  self (docs_world (fst run)) = self (docs_world cw) /\
  exists new,
    chats (fst run) = chats cw ++ new /\
    Forall (fun c => chat_chat_history c = None \/
                     chat_chat_history c = chat_history) new.
Proof.
  cbn zeta. rewrite generate_response_unfold. cbn zeta.
  destruct (co_chat _ _ (search_request message)) as [response|e].
  2: { split; [done|]. split; [done|]. eexists. split; [reflexivity|].
       constructor; [by left|constructor]. }
  destruct (truthy (search_queries response)).
  - destruct (retrieve_docs_effects response
                (chatted cw [search_request message])) as (w' & Hrun & Hself).
    destruct (Chatbot.retrieve_docs response _) as [cw2 [documents|e]];
      cbn [fst] in Hrun; subst cw2; cbn in *.
    + split; [done|]. split; [done|].
      exists [search_request message;
              answer_request message (Some documents) (conversation_id cw)
                             chat_history max_tokens].
      split; [by rewrite <- app_assoc|].
      constructor; [by left|]. constructor; [by right|constructor].
    + split; [done|]. split; [done|]. eexists. split; [reflexivity|].
      constructor; [by left|constructor].
  - cbn. split; [done|]. split; [done|]. eexists. split; [reflexivity|].
    constructor; [by left|]. constructor; [by right|constructor].
Qed.

(** The loop reads the input line by line up to the first line that is
    "quit" or "q" in any mix of upper and lower case, and no further.
    Each line [before] it is one turn: a call of [generate_response]
    without a chat history, on the chatbot as the turn before left it, and
    the text of its response is printed, in order; at the quit line
    "Ending chat." is printed.  When the input ends without such a line,
    every line was a turn.  When the call of a line raises, or its response
    has no text, the script ends with that exception and prints nothing for
    the line.  The run ends with the chatbot and the [Documents] object as
    the last call left them, and the [Documents] object is never changed. *)
Theorem chat_loop_reads_until_quit
    (inputs : list string) (cw : ChatWorld') (out : list (Output Response)) :
  let run := Main.chat_loop inputs cw out in
  self (world run) = self (docs_world cw) /\
  (exists new, requests run = chats cw ++ new /\
     Forall (fun c => chat_chat_history c = None) new) /\
  exists before texts cw',
    Forall (fun m => is_quit m = false) before /\
    turns before cw texts cw' /\
    printed run
    = out ++ map PrintText texts
      ++ match ending run with
         | Quit => [PrintLine "Ending chat."]
         | _ => []
         end /\
    match ending run with
    | Quit =>
        exists stop,
          inputs = before ++ stop :: unread run /\ is_quit stop = true /\
          world run = docs_world cw' /\ requests run = chats cw'
    | EndOfInput =>
        inputs = before /\ unread run = [] /\
        world run = docs_world cw' /\ requests run = chats cw'
    | Failed e =>
        exists m cw2,
          inputs = before ++ m :: unread run /\ is_quit m = false /\
          world run = docs_world cw2 /\ requests run = chats cw2 /\
          (Chatbot.generate_response m None 500 cw' = (cw2, Raise e) \/
           exists response,
             Chatbot.generate_response m None 500 cw' = (cw2, Ok response) /\
             response_text response = Raise e)
    end.
Proof.
  revert cw out. induction inputs as [|message rest IH]; intros cw out;
    cbn zeta; cbn [Main.chat_loop].
  - cbn. split; [done|]. split.
    + exists []. by rewrite app_nil_r.
    + exists [], [], cw. cbn. by rewrite app_nil_r.
  - destruct (is_quit message) eqn:Hquit.
    + cbn. split; [done|]. split.
      * exists []. by rewrite app_nil_r.
      * exists [], [], cw. cbn. split; [done|]. split; [done|].
        split; [done|]. by exists message.
    + destruct (generate_response_effects message None 500 cw)
        as (_ & Hself & new & Hchats & Hnew).
      assert (Hnone : Forall (fun c => chat_chat_history c = None) new).
      { eapply Forall_impl; [exact Hnew|]. by intros c [?|?]. }
      destruct (Chatbot.generate_response message None 500 cw)
        as [cw1 [response|e]] eqn:Hturn; cbn [fst] in *.
      * destruct (response_text response) as [t|e] eqn:Htext.
        -- pose proof (IH cw1 (out ++ [PrintText t])) as IH'. cbn zeta in IH'.
           set (run := Main.chat_loop rest cw1 (out ++ [PrintText t])) in *.
           clearbody run.
           destruct IH'
             as (Hs & (new' & Hreq & Hnew') & before & texts & cw' & Hb & Hturns
                 & Hpr & Hend).
           split; [by rewrite Hs|]. split.
           { exists (new ++ new'). rewrite Hreq, Hchats, <- app_assoc.
             split; [done|]. by apply Forall_app. }
           exists (message :: before), (t :: texts), cw'.
           split; [by constructor|]. split.
           { cbn [turns]. by exists cw1, response. }
           split; [rewrite Hpr, <- app_assoc; done|].
           destruct (ending run) as [| |e].
           ++ destruct Hend as (stop & Hin & Hstop & Hw). exists stop.
              cbn. by rewrite <- Hin.
           ++ destruct Hend as (Hin & Hun & Hw). cbn. by rewrite <- Hin.
           ++ destruct Hend as (m & cw2 & Hin & Hm & Hw). exists m, cw2.
              cbn. by rewrite <- Hin.
        -- cbn. split; [done|]. split; [by exists new|].
           exists [], [], cw. cbn. rewrite app_nil_r.
           split; [done|]. split; [done|]. split; [done|].
           exists message, cw1. repeat split; try done.
           right. by exists response.
      * cbn. split; [done|]. split; [by exists new|].
        exists [], [], cw. cbn. rewrite app_nil_r.
        split; [done|]. split; [done|]. split; [done|].
        exists message, cw1. repeat split; try done. by left.
Qed.
End LoopProperties.

(** ** Scenarios of the further properties *)

Lemma load_negative_takes_all_witness :
  Documents.load (Vec:=nat) (Index:=Mock.index) Mock.open_json (-1) Mock.blank
  = (extended (opened Mock.blank) five_passages, Ok tt).
Proof.
  apply (load_negative_takes_all Mock.open_json
           [Mock.article "A" ["a0"; "a1"; "a2"]; Mock.article "B" ["b0"; "b1"]]
           [(JStr "A", [JStr "a0"; JStr "a1"; JStr "a2"]);
            (JStr "B", [JStr "b0"; JStr "b1"])] (-1)%Z Mock.blank).
  - reflexivity.
  - repeat constructor.
  - lia.
Defined.

Lemma load_twice_appends_witness :
  exists w',
    (Documents.load Mock.open_json 500 >> Documents.load Mock.open_json 500)%py
      Mock.blank = (w', Ok tt) /\
    self_docs (self w') = five_passages ++ five_passages.
Proof.
  destruct (load_twice_appends Mock.open_json
              [Mock.article "A" ["a0"; "a1"; "a2"]; Mock.article "B" ["b0"; "b1"]]
              [(JStr "A", [JStr "a0"; JStr "a1"; JStr "a2"]);
               (JStr "B", [JStr "b0"; JStr "b1"])] 500 Mock.blank)
    as (w' & Hrun & Hdocs & _).
  - reflexivity.
  - repeat constructor.
  - exists w'. split; [exact Hrun|exact Hdocs].
Defined.

(** A text of three characters in four bytes. *)
Lemma load_string_full_text_witness :
  exists w',
    Documents.load (Vec:=nat) (Index:=Mock.index)
      (fun _ => Ok (JArr [JObj [("Title", JStr "A"); ("FullText", JStr "aéb")]]))
      500 Mock.blank = (w', Ok tt) /\
    self_docs (self w') = [passage "A" "a"; passage "A" "é"; passage "A" "b"] /\
    length (self_docs (self w')) = 3.
Proof.
  destruct (load_string_full_text
              (fun _ => Ok (JArr [JObj [("Title", JStr "A"); ("FullText", JStr "aéb")]]))
              (JObj [("Title", JStr "A"); ("FullText", JStr "aéb")])
              (JStr "A") "aéb" 500 Mock.blank)
    as (w' & Hrun & Hdocs & Hlen).
  - reflexivity.
  - reflexivity.
  - reflexivity.
  - reflexivity.
  - lia.
  - exists w'. split; [exact Hrun|]. split; [exact Hdocs|exact Hlen].
Defined.

Lemma load_unreadable_dataset_witness :
  Documents.load (Vec:=nat) (Index:=Mock.index) (fun _ => Ok (JNum 3)) 0
    Mock.blank
  = (opened Mock.blank, Raise TypeError).
Proof.
  apply (load_unreadable_dataset (fun _ => Ok (JNum 3)) 0%Z Mock.blank TypeError).
  right. split; [reflexivity|]. exists (JNum 3). split; [reflexivity|exact I].
Defined.

Lemma load_entry_type_error_witness :
  Documents.load (Vec:=nat) (Index:=Mock.index)
    (fun _ => Ok (JArr [Mock.article "A" ["a0"];
                        JObj [("Title", JStr "B"); ("FullText", JNull)]]))
    500 Mock.blank
  = (extended (opened Mock.blank) [passage "A" "a0"], Raise TypeError).
Proof.
  apply (load_entry_type_error
           (fun _ => Ok (JArr [Mock.article "A" ["a0"];
                               JObj [("Title", JStr "B"); ("FullText", JNull)]]))
           [Mock.article "A" ["a0"]]
           (JObj [("Title", JStr "B"); ("FullText", JNull)]) [] 500
           [[passage "A" "a0"]] Mock.blank).
  - reflexivity.
  - simpl. lia.
  - reflexivity.
  - exists JNull. split; [reflexivity|exact I].
Defined.

(** Five passages in batches of two with a client that embeds once: the
    second call fails, the third batch is not sent, and the vectors of the
    first batch are in the object. *)
Lemma embed_stops_at_first_failure_witness :
  let run := Documents.embed_batches (co:=Faults.embeds_once) 2 Faults.loaded in
  snd run = Raise (BackendError "embed unavailable") /\
  new_events Faults.loaded (fst run)
  = map embed_event (take 2 (batches_of 2 five_passages)) /\
  self_docs_embs (self (fst run)) = [2; 2] /\
  exists vss, self_docs_embs (self (fst run)) = concat vss.
Proof.
  cbn zeta. split; [reflexivity|]. split; [reflexivity|].
  split; [reflexivity|].
  destruct (embed_stops_at_first_failure (co:=Faults.embeds_once) 2 Faults.loaded)
    as (vss & _ & Hself & _).
  - lia.
  - exists vss. rewrite Hself. reflexivity.
Defined.

Lemma build_labels_are_positions_witness :
  exists vs,
    (forall i p, five_passages !! i = Some p ->
       exists v, vs !! i = Some v /\ v = Mock.vec_of (text p) /\
                 seq 0 5 !! i = Some i) /\
    (Documents.embed >> Documents.index)%py Faults.loaded
    = ({| self := Documents.with_index
                    (Documents.with_docs_embs
                       (Documents.with_docs_len (self Faults.loaded) 5) vs)
                    {| Mock.capacity := 5;
                       Mock.items := combine (seq 0 5) vs |};
          trace := map embed_event (batches_of 90 five_passages)
                   ++ [EvInitIndex 5 512 64; EvAddItems 5 (seq 0 5)] |},
       Ok tt).
Proof.
  destruct (build_labels_are_positions (fun t v => v = Mock.vec_of t)
              Faults.loaded)
    as (vs & Hlabels & _ & Hrun).
  - intros h texts. apply mock_embed_contract.
  - reflexivity.
  - exists vs. split; [exact Hlabels|exact Hrun].
Defined.

(** With a client that embeds once, [embed] fails in the constructor, after
    the dataset was opened: the object has no index. *)
Lemma init_index_only_after_embed_witness :
  let run :=
    Documents.init (co:=Faults.embeds_once) Mock.open_json None Mock.blank in
  snd run = Raise (BackendError "embed unavailable") /\
  self_index (self (fst run)) = None /\
  exists m,
    new_events Mock.blank (fst run)
    = EvOpen "datasets/xray_articles.json"
      :: map embed_event (take m (batches_of 90 five_passages)).
Proof.
  cbn zeta.
  pose proof (init_index_only_after_embed (co:=Faults.embeds_once)
                Mock.open_json None Mock.blank) as H.
  vm_compute in H. destruct H as (_ & _ & m & _ & Hev).
  split; [reflexivity|]. split; [reflexivity|]. exists m. exact Hev.
Defined.

(** The index answers with the label 7 over a store of five passages. *)
Lemma retrieve_search_failure_witness :
  Documents.retrieve "q" Faults.stale
  = (after Faults.stale [query_event "q"; EvKnnQuery 3], Raise IndexError).
Proof.
  apply (retrieve_search_failure "q" Faults.stale [1]
           {| Mock.capacity := 5; Mock.items := [(0, 2); (7, 2)] |} IndexError).
  - reflexivity.
  - reflexivity.
  - right. right. split; [reflexivity|]. exists [7; 0], [].
    split; [reflexivity|]. apply Exists_cons_hd. simpl. lia.
Defined.

Lemma retrieve_rerank_index_out_of_range_witness :
  snd (Documents.retrieve (co:=Faults.wild_rerank) "q" scenario)
  = Raise IndexError.
Proof.
  rewrite (retrieve_rerank_index_out_of_range (co:=Faults.wild_rerank)
             "q" scenario [1] scenario_index [4; 3; 2] []
             [passage "B" "b1"; passage "B" "b0"; passage "A" "a2"]
             [{| RerankResult.index := 3 |}]).
  - reflexivity.
  - reflexivity.
  - reflexivity.
  - reflexivity.
  - repeat constructor.
  - reflexivity.
  - apply Exists_cons_hd. unfold in_range. simpl. lia.
Defined.

(** Two search queries with the same text: the passages are there twice. *)
Lemma retrieve_docs_concatenates_witness :
  exists w',
    Chatbot.retrieve_docs
      (Faults.searching [[("text", "q")]; [("text", "q")]]) MockChat.bot
    = (with_docs_world MockChat.bot w',
       Ok [passage "A" "a2"; passage "B" "b0";
           passage "A" "a2"; passage "B" "b0"]).
Proof.
  destruct (retrieve_docs_concatenates
              (Faults.searching [[("text", "q")]; [("text", "q")]])
              MockChat.bot [[("text", "q")]; [("text", "q")]] ["q"; "q"]
              [[passage "A" "a2"; passage "B" "b0"];
               [passage "A" "a2"; passage "B" "b0"]])
    as (w' & Hrun & _).
  - exact mock_deterministic.
  - reflexivity.
  - repeat constructor.
  - repeat constructor.
  - exists w'. exact Hrun.
Defined.

Lemma retrieve_docs_without_text_witness :
  Chatbot.retrieve_docs
    (Faults.searching [[("text", "q")]; [("generation_id", "g")]]) MockChat.bot
  = (MockChat.bot, Raise (KeyError "text")).
Proof.
  apply (retrieve_docs_without_text
           (Faults.searching [[("text", "q")]; [("generation_id", "g")]])
           MockChat.bot (KeyError "text")).
  right. split; [reflexivity|].
  exists [[("text", "q")]; [("generation_id", "g")]].
  split; [reflexivity|]. apply Exists_cons_tl, Exists_cons_hd. reflexivity.
Defined.

Lemma generate_response_direct_witness :
  Chatbot.generate_response "hello" None 500 MockChat.bot
  = (chatted MockChat.bot
       [search_request "hello"; answer_request "hello" None "id-1" None 500],
     Ok {| MockChat.queries := None; MockChat.body := "answer" |}).
Proof.
  rewrite (generate_response_direct "hello" None 500 MockChat.bot
             {| MockChat.queries := Some []; MockChat.body := "" |}).
  - reflexivity.
  - reflexivity.
  - right. reflexivity.
Defined.

Lemma generate_response_grounded_witness :
  exists w',
    Chatbot.generate_response "q" None 500 MockChat.bot
    = (chatted (with_docs_world MockChat.bot w')
         [search_request "q";
          answer_request "q" (Some [passage "A" "a2"; passage "B" "b0"])
                         "id-1" None 500],
       Ok {| MockChat.queries := None; MockChat.body := "answer" |}).
Proof.
  destruct (generate_response_grounded "q" None 500 MockChat.bot
              (Faults.searching [[("text", "q")]]) [("text", "q")] [] ["q"]
              [[passage "A" "a2"; passage "B" "b0"]])
    as (w' & _ & Hrun).
  - exact mock_deterministic.
  - reflexivity.
  - reflexivity.
  - repeat constructor.
  - repeat constructor.
  - exists w'. exact Hrun.
Defined.

(** A greeting, a quit in upper case, and a line that is never read. *)
Lemma chat_loop_scenario :
  let run := Main.chat_loop ["hello"; "Q"; "more"] MockChat.bot [] in
  printed run = [PrintText "answer"; PrintLine "Ending chat."] /\
  unread run = ["more"] /\
  ending run = Quit /\
  requests run
  = [search_request "hello"; answer_request "hello" None "id-1" None 500].
Proof. cbn zeta. by vm_compute. Qed.
